(** * Gen-AI Workout Planner: a shallow embedding of [app.py]

    The script is a Streamlit page: it reads one credential from the
    environment, builds a prompt from four form values with a
    [PromptTemplate], sends it to a text-generation service, renders
    the answer into a PDF and keeps a per-session history list.

    Everything outside the script (environment, generation service,
    wall clock, file system, page output) is explicit state threaded
    through a small state-and-exception monad. *)

From Stdlib Require Import ZArith Ascii String List Bool Lia.
From Stdlib Require Import DecimalString DecimalZ DecimalPos.
From stdpp Require Import base option gmap strings.

Local Open Scope Z_scope.

(** ** Python values and exceptions *)

(** The values the script passes around are [str] and [int]. *)
Inductive py_value : Type :=
  | PyStr (s : string)
  | PyInt (z : Z).

(** [str(int)]: signed decimal, no padding. *)
Definition str_of_int (z : Z) : string :=
  NilZero.string_of_int (Z.to_int z).

(** [int(str)] on a decimal literal. *)
Definition int_of_str (s : string) : option Z :=
  match NilZero.int_of_string s with
  | Some d => Some (Z.of_int d)
  | None => None
  end.

(** [str(v)], which is also what a bare [{name}] field of [str.format]
    and of an f-string writes. *)
Definition py_str (v : py_value) : string :=
  match v with
  | PyStr s => s
  | PyInt z => str_of_int z
  end.

(** A raised object.  [except Exception] catches instances of
    [Exception] only; [KeyboardInterrupt], [SystemExit] and the like
    derive from [BaseException] directly and pass through it. *)
Record exn : Type := mk_exn {
  exn_is_Exception : bool;
  exn_str : string            (* str(e) *)
}.

Definition KeyError (k : string) : exn := mk_exn true ("'" +:+ k +:+ "'").
Definition ValueError (m : string) : exn := mk_exn true m.
Definition FileNotFoundError (f : string) : exn :=
  mk_exn true ("[Errno 2] No such file or directory: '" +:+ f +:+ "'").

(** ** [PromptTemplate.format]: Python's [str.format] with keyword
    arguments.

    The scanner copies literal characters, turns the doubled braces
    into single ones and replaces [{name}] by [str(kwargs[name])].
    Substituted text is not scanned again.  Conversions and format
    specifications do not occur in the template and are not modelled. *)

Definition kwargs := list (string * py_value).

Fixpoint kw_lookup (k : string) (kw : kwargs) : option py_value :=
  match kw with
  | [] => None
  | (k', v) :: kw' => if String.eqb k k' then Some v else kw_lookup k kw'
  end.

Definition lbrace : ascii := "{"%char.
Definition rbrace : ascii := "}"%char.

Definition emit (c : ascii) (r : exn + string) : exn + string :=
  match r with
  | inl e => inl e
  | inr s => inr (String c s)
  end.

Definition emit_str (t : string) (r : exn + string) : exn + string :=
  match r with
  | inl e => inl e
  | inr s => inr (t +:+ s)
  end.

(** [field = None]: in literal text; [field = Some n]: inside a
    replacement field whose name read so far is [n]. *)
Fixpoint str_format (kw : kwargs) (tpl : string) (field : option string)
  : exn + string :=
  match field with
  | None =>
      match tpl with
      | EmptyString => inr EmptyString
      | String c rest =>
          if Ascii.eqb c lbrace then
            match rest with
            | String c' rest' =>
                if Ascii.eqb c' lbrace
                then emit lbrace (str_format kw rest' None)
                else str_format kw rest (Some EmptyString)
            | EmptyString => inl (ValueError "Single '{' encountered in format string")
            end
          else if Ascii.eqb c rbrace then
            match rest with
            | String c' rest' =>
                if Ascii.eqb c' rbrace
                then emit rbrace (str_format kw rest' None)
                else inl (ValueError "Single '}' encountered in format string")
            | EmptyString => inl (ValueError "Single '}' encountered in format string")
            end
          else emit c (str_format kw rest None)
      end
  | Some name =>
      match tpl with
      | EmptyString => inl (ValueError "expected '}' before end of string")
      | String c rest =>
          if Ascii.eqb c rbrace then
            match kw_lookup name kw with
            | Some v => emit_str (py_str v) (str_format kw rest None)
            | None => inl (KeyError name)
            end
          else str_format kw rest (Some (name +:+ String c EmptyString))
      end
  end.

(** The template of [workout_prompt] (lines 30-38). *)
Definition workout_template : string :=
  "Create a personalized workout plan for a {fitness_level} individual "
  +:+ "whose goal is {goal}. The workout should last {duration} minutes "
  +:+ "and use {equipment} equipment. Provide step-by-step exercises with "
  +:+ "sets, reps, and rest intervals.".

(** [workout_prompt.format(fitness_level=.., goal=.., duration=.., equipment=..)] *)
Definition workout_prompt_format
    (fitness_level goal duration equipment : py_value) : exn + string :=
  str_format
    [("fitness_level", fitness_level); ("goal", goal);
     ("duration", duration); ("equipment", equipment)]%string
    workout_template None.

(** ** [datetime] and [strftime] *)

Record datetime : Type := mk_datetime {
  year : Z; month : Z; day : Z;
  hour : Z; minute : Z; second : Z; microsecond : Z
}.

Definition MINYEAR : Z := 1.
Definition MAXYEAR : Z := 9999.

Definition is_leap (y : Z) : bool :=
  (y mod 4 =? 0) && (negb (y mod 100 =? 0) || (y mod 400 =? 0)).

Definition days_in_month (y m : Z) : Z :=
  if m =? 2 then (if is_leap y then 29 else 28)
  else if (m =? 4) || (m =? 6) || (m =? 9) || (m =? 11) then 30
  else 31.

(** The field ranges the [datetime] constructor enforces. *)
Definition valid_datetime (t : datetime) : Prop :=
  MINYEAR <= year t <= MAXYEAR /\
  1 <= month t <= 12 /\
  1 <= day t <= days_in_month (year t) (month t) /\
  0 <= hour t < 24 /\
  0 <= minute t < 60 /\
  0 <= second t < 60 /\
  0 <= microsecond t < 1000000.

Definition days_before_year (y : Z) : Z :=
  let p := y - 1 in p * 365 + p / 4 - p / 100 + p / 400.

Fixpoint days_before_month_nat (y : Z) (m : nat) : Z :=
  match m with
  | O => 0
  | S m' => days_before_month_nat y m' + days_in_month y (Z.of_nat m)
  end.

(** Days in year [y] before the first day of month [m]. *)
Definition days_before_month (y m : Z) : Z :=
  days_before_month_nat y (Z.to_nat (m - 1)).

(** [date.toordinal()]: 1 for 0001-01-01. *)
Definition toordinal (t : datetime) : Z :=
  days_before_year (year t) + days_before_month (year t) (month t) + day t.

(** Microseconds since the start of day 0 of the proleptic calendar. *)
Definition to_microseconds (t : datetime) : Z :=
  (((toordinal t * 24 + hour t) * 60 + minute t) * 60 + second t) * 1000000
  + microsecond t.

(** [t1 - t2] as a [timedelta], in microseconds. *)
Definition datetime_sub (t1 t2 : datetime) : Z :=
  to_microseconds t1 - to_microseconds t2.

Fixpoint zeros (n : nat) : string :=
  match n with
  | O => EmptyString
  | S n' => String "0" (zeros n')
  end.

(** The C conversion [%0<width>d]. *)
Definition zero_pad (width : nat) (n : Z) : string :=
  let s := str_of_int n in
  zeros (width - String.length s) +:+ s.

(** One conversion of [strftime]; an unknown one is copied as it is. *)
Definition strftime_directive (t : datetime) (c : ascii) : string :=
  if Ascii.eqb c "Y" then zero_pad 4 (year t)
  else if Ascii.eqb c "m" then zero_pad 2 (month t)
  else if Ascii.eqb c "d" then zero_pad 2 (day t)
  else if Ascii.eqb c "H" then zero_pad 2 (hour t)
  else if Ascii.eqb c "M" then zero_pad 2 (minute t)
  else if Ascii.eqb c "S" then zero_pad 2 (second t)
  else if Ascii.eqb c "%" then "%"
  else String "%" (String c EmptyString).

Fixpoint strftime (t : datetime) (fmt : string) : string :=
  match fmt with
  | EmptyString => EmptyString
  | String c rest =>
      if Ascii.eqb c "%" then
        match rest with
        | String d rest' => strftime_directive t d +:+ strftime t rest'
        | EmptyString => "%"
        end
      else String c (strftime t rest)
  end.

(** ** The PDF canvas

    An [FPDF] object is modelled by the drawing calls made on it, in
    call order; [output] stores that list under the file name, when the
    text drawn can be encoded for the core font. *)

Inductive pdf_op : Type :=
  | OpAddPage
  | OpSetFont (family : string) (size : Z)
  | OpCell (w h : Z) (txt : string) (ln : bool) (align : string)
  | OpLn (h : Z)
  | OpMultiCell (w h : Z) (txt : string).

Definition pdf_doc := list pdf_op.

(** The text a document shows, one item per [cell] / [multi_cell]. *)
Fixpoint doc_text (d : pdf_doc) : list string :=
  match d with
  | [] => []
  | OpCell _ _ txt _ _ :: d' => txt :: doc_text d'
  | OpMultiCell _ _ txt :: d' => txt :: doc_text d'
  | _ :: d' => doc_text d'
  end.

(** ** Page output *)

Inductive container : Type :=
  | Sidebar
  | Spinner (text : string)
  | Expander (label : string).

Inductive ui_event : Type :=
  | UiMarkdown (body : string)
  | UiTitle (body : string)
  | UiHeader (body : string)
  | UiSubheader (body : string)
  | UiWrite (body : string)
  | UiError (body : string)
  | UiSuccess (body : string)
  | UiSelectbox (label : string) (options : list string)
  | UiNumberInput (label : string) (min_value max_value value step : Z)
  | UiButton (label : string)
  | UiDownloadButton (label : string) (data : pdf_doc) (file_name mime : string)
  | UiEnter (c : container)
  | UiExit.

(** ** Session and world *)

(** One history entry: the dict appended on lines 117-124. *)
Record entry : Type := mk_entry {
  plan : string;
  fitness_level : string;
  goal : string;
  duration : Z;
  equipment : string;
  date : string
}.

(** Front-end widget state: the selected index of each select box,
    the number in the number input, and whether this run was started
    by a click on the button. *)
Record widgets : Type := mk_widgets {
  sel_fitness : nat;
  sel_goal : nat;
  num_duration : Z;
  sel_equipment : nat;
  btn_generate : bool
}.

Record world : Type := mk_world {
  w_ui : list ui_event;                   (* what the page shows, in order *)
  w_fs : gmap string pdf_doc;             (* files in the working directory *)
  w_session : gmap string (list entry);   (* st.session_state *)
  w_widgets : widgets;
  w_requests : list string;               (* prompts sent to the service *)
  w_clock : nat                           (* wall-clock reads so far *)
}.

(** What [generate_content] hands back: reading [.text] may itself
    raise (a blocked or empty candidate). *)
Record response : Type := mk_response { text : exn + string }.

(** The collaborators the script does not define. *)
Record environment : Type := mk_environment {
  getenv : string -> option string;       (* os.getenv, after load_dotenv *)
  GenerativeModel : string -> option exn; (* the constructor: [Some e] if it raises *)
  generate_content : nat -> string -> exn + response; (* n-th request, prompt *)
  now : nat -> datetime                   (* n-th read of the wall clock *)
}.

(** ** The script monad: state, exceptions and [st.stop()] *)

Inductive result (A : Type) : Type :=
  | Ret (a : A) (w : world)
  | Raise (e : exn) (w : world)
  | Stopped (w : world).
Arguments Ret {A} a w.
Arguments Raise {A} e w.
Arguments Stopped {A} w.

Definition M (A : Type) : Type := world -> result A.

Definition ret {A} (a : A) : M A := fun w => Ret a w.

Definition bind {A B} (m : M A) (k : A -> M B) : M B :=
  fun w =>
    match m w with
    | Ret a w' => k a w'
    | Raise e w' => Raise e w'
    | Stopped w' => Stopped w'
    end.

Declare Scope script_scope.
Delimit Scope script_scope with script.
Notation "x <- m ;; k" := (bind m (fun x => k))
  (at level 100, m at next level, right associativity) : script_scope.
Notation "m ;; k" := (bind m (fun _ => k))
  (at level 100, right associativity) : script_scope.
Local Open Scope script_scope.

Definition raise {A} (e : exn) : M A := fun w => Raise e w.

Definition lift_exn {A} (r : exn + A) : M A :=
  match r with
  | inl e => raise e
  | inr a => ret a
  end.

(** [try: body  except Exception as e: handler e] *)
Definition try_except {A} (body : M A) (handler : exn -> M A) : M A :=
  fun w =>
    match body w with
    | Raise e w' =>
        if exn_is_Exception e then handler e w' else Raise e w'
    | r => r
    end.

Definition get_world : M world := fun w => Ret w w.
Definition modify (f : world -> world) : M unit := fun w => Ret tt (f w).

(** State updates, one per field the script touches. *)
Definition add_ui (ev : ui_event) (w : world) : world :=
  mk_world (w_ui w ++ [ev]) (w_fs w) (w_session w) (w_widgets w)
           (w_requests w) (w_clock w).
Definition set_fs (fs : gmap string pdf_doc) (w : world) : world :=
  mk_world (w_ui w) fs (w_session w) (w_widgets w) (w_requests w) (w_clock w).
Definition set_session (ss : gmap string (list entry)) (w : world) : world :=
  mk_world (w_ui w) (w_fs w) ss (w_widgets w) (w_requests w) (w_clock w).
Definition add_request (prompt : string) (w : world) : world :=
  mk_world (w_ui w) (w_fs w) (w_session w) (w_widgets w)
           (w_requests w ++ [prompt]) (w_clock w).
Definition tick (w : world) : world :=
  mk_world (w_ui w) (w_fs w) (w_session w) (w_widgets w)
           (w_requests w) (S (w_clock w)).

(** ** Streamlit primitives *)

Definition st_emit (ev : ui_event) : M unit := modify (add_ui ev).
Definition st_markdown (body : string) : M unit := st_emit (UiMarkdown body).
Definition st_title (body : string) : M unit := st_emit (UiTitle body).
Definition st_header (body : string) : M unit := st_emit (UiHeader body).
Definition st_subheader (body : string) : M unit := st_emit (UiSubheader body).
Definition st_write (body : string) : M unit := st_emit (UiWrite body).
Definition st_error (body : string) : M unit := st_emit (UiError body).
Definition st_success (body : string) : M unit := st_emit (UiSuccess body).

(** [st.stop()]: the run of the script ends here. *)
Definition st_stop {A} : M A := fun w => Stopped w.

(** [with c: body]: the block is closed on every way out of [body]. *)
Definition with_ {A} (c : container) (body : M A) : M A :=
  fun w =>
    match body (add_ui (UiEnter c) w) with
    | Ret a w' => Ret a (add_ui UiExit w')
    | Raise e w' => Raise e (add_ui UiExit w')
    | Stopped w' => Stopped (add_ui UiExit w')
    end.

(** The option a select box holding index [i] returns. *)
Definition selected (options : list string) (i : nat) : string :=
  nth i options (hd EmptyString options).

(** [st.selectbox]: the option at the selected index. *)
Definition st_selectbox (label : string) (options : list string)
    (sel : widgets -> nat) : M string :=
  st_emit (UiSelectbox label options);;
  w <- get_world;;
  ret (selected options (sel (w_widgets w))).

(** [st.number_input] with integer bounds: the number the widget holds. *)
Definition st_number_input (label : string) (min_value max_value value step : Z)
  : M Z :=
  st_emit (UiNumberInput label min_value max_value value step);;
  w <- get_world;;
  ret (num_duration (w_widgets w)).

(** [st.button]: [True] in the run started by the click. *)
Definition st_button (label : string) : M bool :=
  st_emit (UiButton label);;
  w <- get_world;;
  ret (btn_generate (w_widgets w)).

Definition st_download_button (label : string) (data : pdf_doc)
    (file_name mime : string) : M unit :=
  st_emit (UiDownloadButton label data file_name mime).

(** ** File system *)

(** Text is held in UTF-8, as the literals of this file are.  A
    character up to U+00FF is one byte below 128, or the lead byte 194
    or 195 followed by one continuation byte; any other lead byte
    starts a character beyond latin-1. *)
Fixpoint latin1 (s : string) : bool :=
  match s with
  | EmptyString => true
  | String c rest =>
      let n := nat_of_ascii c in
      if (n <? 128)%nat then latin1 rest
      else if (n =? 194)%nat || (n =? 195)%nat then
        match rest with
        | String c' rest' =>
            let n' := nat_of_ascii c' in
            (128 <=? n')%nat && (n' <? 192)%nat && latin1 rest'
        | EmptyString => false
        end
      else false
  end.

(** Whether the text drawn on the page can be encoded for a core font. *)
Definition page_encodable (pdf : pdf_doc) : bool :=
  forallb latin1 (doc_text pdf).

(** What [encode("latin1")] raises; the real message also names the
    character and its position in the page buffer. *)
Definition UnicodeEncodeError : exn :=
  mk_exn true "'latin-1' codec can't encode character: ordinal not in range(256)".

(** [pdf.output(filename)]: the page is encoded in latin-1 before the
    file is opened; text beyond latin-1 raises and no file is written. *)
Definition pdf_output (pdf : pdf_doc) (filename : string) : M unit :=
  fun w =>
    if page_encodable pdf
    then Ret tt (set_fs (<[filename := pdf]> (w_fs w)) w)
    else Raise UnicodeEncodeError w.

(** [open(filename, "rb")] *)
Definition open_rb (filename : string) : M pdf_doc :=
  fun w =>
    match w_fs w !! filename with
    | Some d => Ret d w
    | None => Raise (FileNotFoundError filename) w
    end.

(** [not x] for [x] an optional string: true of [None] and of [""]. *)
Definition py_not (x : option string) : bool :=
  match x with
  | None => true
  | Some s => String.eqb s EmptyString
  end.

(** The style sheet written on lines 77-98. *)
Definition page_style : string :=
"
        <style>
        .main {
            background-color: #f0f2f6;
            padding: 20px;
            border-radius: 10px;
        }
        .stButton>button {
            background-color: #4CAF50;
            color: white;
            border-radius: 5px;
        }
        .stSelectbox, .stNumberInput {
            background-color: white;
            border-radius: 5px;
        }
        h1 {
            color: #2c3e50;
            text-align: center;
        }
        </style>
    ".

Definition fitness_options : list string :=
  ["Beginner"; "Intermediate"; "Advanced"]%string.
Definition goal_options : list string :=
  ["Weight Loss"; "Muscle Gain"; "Endurance"; "General Fitness"]%string.
Definition equipment_options : list string :=
  ["Bodyweight"; "Dumbbells"; "Gym Equipment"; "Resistance Bands"]%string.
Definition duration_min : Z := 10.
Definition duration_max : Z := 120.
Definition duration_default : Z := 30.
Definition duration_step : Z := 5.

Definition history_key : string := "workout_history".

(** ** The script *)

Section Script.

Variable env : environment.

(** [datetime.now()] *)
Definition datetime_now : M datetime :=
  fun w => Ret (now env (w_clock w)) (tick w).

(** [model.generate_content(prompt)]: one request to the service. *)
Definition model_generate_content (prompt : string) : M response :=
  fun w =>
    let n := List.length (w_requests w) in
    match generate_content env n prompt with
    | inl e => Raise e (add_request prompt w)
    | inr r => Ret r (add_request prompt w)
    end.

(** [response.text] *)
Definition response_text (r : response) : M string := lift_exn (text r).

(** Module initialisation, lines 9-27.  [genai.configure] only stores
    the key. *)
Definition startup : M unit :=
  let GOOGLE_API_KEY := getenv env "GOOGLE_API_KEY" in
  (if py_not GOOGLE_API_KEY
   then st_error "❌ Gemini API Key missing! Please add it to the .env file.";;
        st_stop
   else ret tt);;
  try_except
    (match GenerativeModel env "gemini-1.5-flash" with
     | Some e => raise e
     | None => ret tt
     end)
    (fun e =>
       st_error ("❌ Gemini Initialization Error: " +:+ exn_str e);;
       st_stop).

(** Lines 41-53. *)
Definition generate_workout (fitness_level goal : string) (duration : Z)
    (equipment : string) : M string :=
  prompt <- lift_exn (workout_prompt_format
                        (PyStr fitness_level) (PyStr goal)
                        (PyInt duration) (PyStr equipment));;
  try_except
    (response <- model_generate_content prompt;;
     response_text response)
    (fun e =>
       st_error ("❌ Error generating workout: " +:+ exn_str e);;
       ret ("An error occurred: " +:+ exn_str e)).

(** The drawing calls of lines 57-69, in order. *)
Definition pdf_page (workout_plan fitness_level goal : string) (duration : Z)
    (equipment : string) : pdf_doc :=
  [ OpAddPage;
    OpSetFont "Arial" 12;
    OpCell 200 10 "Personalized Workout Plan" true "C";
    OpLn 10;
    OpCell 200 10 ("Fitness Level: " +:+ fitness_level) true "";
    OpCell 200 10 ("Goal: " +:+ goal) true "";
    OpCell 200 10 ("Duration: " +:+ str_of_int duration +:+ " minutes") true "";
    OpCell 200 10 ("Equipment: " +:+ equipment) true "";
    OpLn 10;
    OpMultiCell 0 10 workout_plan ].

(** Lines 56-73. *)
Definition create_pdf (workout_plan fitness_level goal : string) (duration : Z)
    (equipment : string) : M string :=
  let pdf := pdf_page workout_plan fitness_level goal duration equipment in
  t <- datetime_now;;
  let filename := "Workout_Plan_" +:+ strftime t "%Y%m%d_%H%M%S" +:+ ".pdf" in
  pdf_output pdf filename;;
  ret filename.

(** [st.session_state.workout_history.append(e)] *)
Definition history_append (e : entry) : M unit :=
  fun w =>
    match w_session w !! history_key with
    | Some h => Ret tt (set_session (<[history_key := h ++ [e]]> (w_session w)) w)
    | None => Raise (mk_exn true "st.session_state has no attribute 'workout_history'") w
    end.

(** The body of the loop on lines 141-147, for the entry at index [i]. *)
Definition show_entry (i : nat) (e : entry) : M unit :=
  with_ (Expander ("Workout " +:+ str_of_int (Z.of_nat i + 1) +:+ " - " +:+ date e))
    (st_write ("**Fitness Level:** " +:+ fitness_level e);;
     st_write ("**Goal:** " +:+ goal e);;
     st_write ("**Duration:** " +:+ str_of_int (duration e) +:+ " minutes");;
     st_write ("**Equipment:** " +:+ equipment e);;
     st_markdown (plan e)).

Fixpoint show_history (i : nat) (h : list entry) : M unit :=
  match h with
  | [] => ret tt
  | e :: h' => show_entry i e;; show_history (S i) h'
  end.

(** The sidebar block, lines 103-109: the five widget values. *)
Definition sidebar_form : M (string * string * Z * string * bool) :=
  with_ Sidebar
    (st_header "Workout Preferences";;
     fitness_level <- st_selectbox "Fitness Level" fitness_options sel_fitness;;
     goal <- st_selectbox "Fitness Goal" goal_options sel_goal;;
     duration <- st_number_input "Duration (minutes)"
                   duration_min duration_max duration_default duration_step;;
     equipment <- st_selectbox "Equipment Available" equipment_options sel_equipment;;
     generate_button <- st_button "Generate Workout Plan";;
     ret (fitness_level, goal, duration, equipment, generate_button)).

(** Lines 111-112. *)
Definition init_history : M unit :=
  fun w =>
    match w_session w !! history_key with
    | None => Ret tt (set_session (<[history_key := []]> (w_session w)) w)
    | Some _ => Ret tt w
    end.

(** The body of [if generate_button:], lines 115-137. *)
Definition on_generate (fitness_level goal : string) (duration : Z)
    (equipment : string) : M unit :=
  workout_plan <- with_ (Spinner "Generating your workout plan...")
    (workout_plan <- generate_workout fitness_level goal duration equipment;;
     t <- datetime_now;;
     history_append
       (mk_entry workout_plan fitness_level goal duration equipment
                 (strftime t "%Y-%m-%d %H:%M:%S"));;
     st_success "✅ Workout plan generated successfully!";;
     ret workout_plan);;
  st_subheader "Your Workout Plan";;
  st_markdown workout_plan;;
  pdf_file <- create_pdf workout_plan fitness_level goal duration equipment;;
  file <- open_rb pdf_file;;
  st_download_button "Download as PDF" file pdf_file "application/pdf".

(** Lines 139-147. *)
Definition history_section : M unit :=
  w <- get_world;;
  match w_session w !! history_key with
  | Some (e :: h) =>
      st_subheader "Workout History";;
      show_history 0 (e :: h)
  | _ => ret tt
  end.

(** Lines 76-147. *)
Definition main : M unit :=
  st_markdown page_style;;
  st_title "🏋️‍♀️ Personalized Workout Planner";;
  st_markdown "Generate a custom workout plan tailored to your needs!";;
  form <- sidebar_form;;
  let '(fitness_level, goal, duration, equipment, generate_button) := form in
  init_history;;
  (if generate_button : bool
   then on_generate fitness_level goal duration equipment
   else ret tt);;
  history_section.

(** One run of the script, top to bottom. *)
Definition script : M unit := startup;; main.

End Script.

(** ** The form and the session *)

(** Modelled from the spec: the Streamlit widgets and the rerun loop are
    library code outside the source.  Section 6 gives the form as
    fitness_level (3-way enum), goal (4-way enum), duration (integer,
    10-120 step 5), equipment (4-way enum) and one submit action; the
    bounds, default and step are the arguments of the calls on lines
    105-109.  These are the things a user can do to the form. *)
Inductive action : Type :=
  | SelectFitness (i : nat)
  | SelectGoal (i : nat)
  | SelectEquipment (i : nat)
  | TypeDuration (z : Z)
  | StepUp
  | StepDown
  | ClickGenerate.

Definition initial_widgets : widgets :=
  mk_widgets 0 0 duration_default 0 false.

Definition pick (options : list string) (i old : nat) : nat :=
  if (i <? List.length options)%nat then i else old.

Definition in_bounds (z : Z) : bool :=
  (duration_min <=? z) && (z <=? duration_max).

Definition commit (z old : Z) : Z := if in_bounds z then z else old.

(** Modelled from the spec: what an action does to the widgets.  A
    select box holds the index of one of its options; the number input
    refuses a number outside its bounds and steps only while the result
    stays inside them; the button reads [True] only in the run its click
    started. *)
Definition apply_action (a : action) (ws : widgets) : widgets :=
  match a with
  | SelectFitness i =>
      mk_widgets (pick fitness_options i (sel_fitness ws)) (sel_goal ws)
                 (num_duration ws) (sel_equipment ws) false
  | SelectGoal i =>
      mk_widgets (sel_fitness ws) (pick goal_options i (sel_goal ws))
                 (num_duration ws) (sel_equipment ws) false
  | SelectEquipment i =>
      mk_widgets (sel_fitness ws) (sel_goal ws) (num_duration ws)
                 (pick equipment_options i (sel_equipment ws)) false
  | TypeDuration z =>
      mk_widgets (sel_fitness ws) (sel_goal ws)
                 (commit z (num_duration ws)) (sel_equipment ws) false
  | StepUp =>
      mk_widgets (sel_fitness ws) (sel_goal ws)
                 (commit (num_duration ws + duration_step) (num_duration ws))
                 (sel_equipment ws) false
  | StepDown =>
      mk_widgets (sel_fitness ws) (sel_goal ws)
                 (commit (num_duration ws - duration_step) (num_duration ws))
                 (sel_equipment ws) false
  | ClickGenerate =>
      mk_widgets (sel_fitness ws) (sel_goal ws) (num_duration ws)
                 (sel_equipment ws) true
  end.

(** The state a run leaves behind, however it ended. *)
Definition world_of {A} (r : result A) : world :=
  match r with
  | Ret _ w => w
  | Raise _ w => w
  | Stopped w => w
  end.

(** A run starts on an empty page with the widgets as the user left them. *)
Definition begin_run (ws : widgets) (w : world) : world :=
  mk_world [] (w_fs w) (w_session w) ws (w_requests w) (w_clock w).

Definition initial_world : world :=
  mk_world [] ∅ ∅ initial_widgets [] 0.

(** Modelled from the spec: every user action starts a new run of the
    script, on the state the last run left. *)
Definition interact (env : environment) (w : world) (a : action) : world :=
  world_of (script env (begin_run (apply_action a (w_widgets w)) w)).

(** Opening the page, then the actions in order. *)
Definition run_session (env : environment) (acts : list action) : world :=
  fold_left (interact env) acts (world_of (script env initial_world)).

(** The history list of a world ([[]] before the key is set). *)
Definition history (w : world) : list entry :=
  default [] (w_session w !! history_key).


(** ** Vocabulary of the statements *)

(** The template with its four fields replaced. *)
Definition prompt_of (fitness_level goal : string) (duration : Z)
    (equipment : string) : string :=
  "Create a personalized workout plan for a " +:+ fitness_level
  +:+ " individual whose goal is " +:+ goal
  +:+ ". The workout should last " +:+ str_of_int duration
  +:+ " minutes and use " +:+ equipment
  +:+ " equipment. Provide step-by-step exercises with sets, reps, and rest intervals.".

(** What the service answers to its [n]-th request: the text of the
    response, or whatever the call or the read of [.text] raised. *)
Definition reply (env : environment) (n : nat) (prompt : string) : exn + string :=
  match generate_content env n prompt with
  | inl e => inl e
  | inr r => text r
  end.

(** The credential is there and the model object could be built. *)
Definition startup_ok (env : environment) : Prop :=
  py_not (getenv env "GOOGLE_API_KEY") = false /\
  GenerativeModel env "gemini-1.5-flash" = None.

(** Whatever the service raises is an instance of [Exception]. *)
Definition raises_only_Exception (env : environment) : Prop :=
  forall n prompt e, reply env n prompt = inl e -> exn_is_Exception e = true.

Definition is_digit (c : ascii) : bool :=
  (48 <=? nat_of_ascii c)%nat && (nat_of_ascii c <=? 57)%nat.

Fixpoint all_digits (s : string) : bool :=
  match s with
  | EmptyString => true
  | String c s' => is_digit c && all_digits s'
  end.

Definition duration_ok (d : Z) : Prop := duration_min <= d <= duration_max.

(** An invariant [I] kept by a computation on every way out, with [Q]
    holding of the value it returns. *)
Definition triple {A} (I : world -> Prop) (m : M A) (Q : A -> Prop) : Prop :=
  forall w, I w ->
    match m w with
    | Ret a w' => I w' /\ Q a
    | Raise _ w' => I w'
    | Stopped w' => I w'
    end.

(** Every duration the session holds or has written is within the
    bounds of the number input. *)
Record session_inv (w : world) : Prop := mk_session_inv {
  inv_widgets : duration_ok (num_duration (w_widgets w));
  inv_history :
    map_Forall (fun _ h => Forall (fun e => duration_ok (duration e)) h)
               (w_session w);
  inv_requests :
    Forall (fun p => exists fl g d eq, duration_ok d /\ p = prompt_of fl g d eq)
           (w_requests w);
  inv_files :
    map_Forall (fun _ doc => exists wp fl g d eq,
                  duration_ok d /\ doc = pdf_page wp fl g d eq)
               (w_fs w)
}.

(** Number of submissions among the actions of a session. *)
Definition is_click (a : action) : bool :=
  match a with
  | ClickGenerate => true
  | _ => false
  end.

Definition clicks (acts : list action) : nat :=
  List.length (List.filter is_click acts).

(** [zero_pad w n] has [w] characters, all digits, and reads back as [n]. *)
Definition pad_ok (w : nat) (n : nat) : bool :=
  let s := zero_pad w (Z.of_nat n) in
  (String.length s =? w)%nat && all_digits s &&
  match int_of_str s with
  | Some z => z =? Z.of_nat n
  | None => false
  end.

(** The name [create_pdf] gives its file when the clock reads [t]. *)
Definition pdf_name (t : datetime) : string :=
  "Workout_Plan_" +:+ strftime t "%Y%m%d_%H%M%S" +:+ ".pdf".

(** The text that stands for the workout plan, given the reply. *)
Definition plan_text (r : exn + string) : string :=
  match r with
  | inr s => s
  | inl e => "An error occurred: " +:+ exn_str e
  end.

(** [w'] differs from [w] by output added to the page only. *)
Definition only_ui (w w' : world) : Prop :=
  (exists evs, w_ui w' = w_ui w ++ evs) /\
  w_fs w' = w_fs w /\ w_session w' = w_session w /\
  w_widgets w' = w_widgets w /\ w_requests w' = w_requests w /\
  w_clock w' = w_clock w.

(** The claim that a run is halted for one reason only, the missing
    credential, as section 7 words it. *)
Definition only_missing_credential_halts : Prop :=
  forall (env : environment) (w : world),
    match script env w with
    | Stopped _ => py_not (getenv env "GOOGLE_API_KEY") = true
    | _ => True
    end.

(** The entry a click on the button appends when the session is in
    state [w]: the values the form holds, the clock reading, and the
    text that stands for the plan. *)
Definition submitted_entry (env : environment) (w : world) : entry :=
  let ws := w_widgets w in
  let fl := selected fitness_options (sel_fitness ws) in
  let g := selected goal_options (sel_goal ws) in
  let d := num_duration ws in
  let eq := selected equipment_options (sel_equipment ws) in
  mk_entry (plan_text (reply env (List.length (w_requests w)) (prompt_of fl g d eq)))
           fl g d eq
           (strftime (now env (w_clock w)) "%Y-%m-%d %H:%M:%S").

(** The prompt built from the inputs a history entry records. *)
Definition prompt_of_entry (e : entry) : string :=
  prompt_of (fitness_level e) (goal e) (duration e) (equipment e).

(** The document [create_pdf] draws for a history entry. *)
Definition pdf_of_entry (e : entry) : pdf_doc :=
  pdf_page (plan e) (fitness_level e) (goal e) (duration e) (equipment e).

(** What a run has added to the page since it was in state [w]. *)
Definition ui_since (w w' : world) : list ui_event :=
  drop (List.length (w_ui w)) (w_ui w').

(** The labels of the expanders opened, in page order. *)
Fixpoint expander_labels (evs : list ui_event) : list string :=
  match evs with
  | [] => []
  | UiEnter (Expander label) :: evs' => label :: expander_labels evs'
  | _ :: evs' => expander_labels evs'
  end.

(** The texts written with [st.markdown], in page order. *)
Fixpoint markdown_bodies (evs : list ui_event) : list string :=
  match evs with
  | [] => []
  | UiMarkdown body :: evs' => body :: markdown_bodies evs'
  | _ :: evs' => markdown_bodies evs'
  end.

(** The calendar fields a stamp shows: everything but the microseconds. *)
Definition same_second (t1 t2 : datetime) : Prop :=
  year t1 = year t2 /\ month t1 = month t2 /\ day t1 = day t2 /\
  hour t1 = hour t2 /\ minute t1 = minute t2 /\ second t1 = second t2.

(** The page up to the end of the sidebar block, lines 77-109. *)
Definition form_events : list ui_event :=
  [ UiMarkdown page_style;
    UiTitle "🏋️‍♀️ Personalized Workout Planner";
    UiMarkdown "Generate a custom workout plan tailored to your needs!";
    UiEnter Sidebar;
    UiHeader "Workout Preferences";
    UiSelectbox "Fitness Level" fitness_options;
    UiSelectbox "Fitness Goal" goal_options;
    UiNumberInput "Duration (minutes)" duration_min duration_max
                  duration_default duration_step;
    UiSelectbox "Equipment Available" equipment_options;
    UiButton "Generate Workout Plan";
    UiExit ].

(** The messages shown with [st.error], in page order. *)
Fixpoint error_messages (evs : list ui_event) : list string :=
  match evs with
  | [] => []
  | UiError body :: evs' => body :: error_messages evs'
  | _ :: evs' => error_messages evs'
  end.

(** Year, month and day of the day [days] days after 1970-01-01. *)
Definition civil_from_days (days : Z) : Z * Z * Z :=
  let z := days + 719468 in
  let era := z / 146097 in
  let doe := z - era * 146097 in
  let yoe := (doe - doe / 1460 + doe / 36524 - doe / 146096) / 365 in
  let doy := doe - (365 * yoe + yoe / 4 - yoe / 100) in
  let mp := (5 * doy + 2) / 153 in
  let d := doy - (153 * mp + 2) / 5 + 1 in
  let m := if mp <? 10 then mp + 3 else mp - 9 in
  let y := yoe + era * 400 + (if m <=? 2 then 1 else 0) in
  (y, m, d).

(** [datetime.fromtimestamp]: the naive local time at an instant given
    in microseconds since the epoch, in a zone whose offset from UTC
    (in seconds) may change with the instant. *)
Definition fromtimestamp (utc_offset : Z -> Z) (posix_us : Z) : datetime :=
  let secs := posix_us / 1000000 in
  let local := secs + utc_offset secs in
  let '(y, m, d) := civil_from_days (local / 86400) in
  let rem := local mod 86400 in
  mk_datetime y m d (rem / 3600) (rem mod 3600 / 60) (rem mod 60)
              (posix_us mod 1000000).

(** ** Sample collaborators *)

(** A clock that advances one second per read. *)
Definition ticking_clock (n : nat) : datetime :=
  mk_datetime 2024 1 2 12 0 (Z.of_nat n mod 60) 0.

Definition with_key (k : string) : option string :=
  if String.eqb k "GOOGLE_API_KEY" then Some "secret"%string else None.

(** A service that answers every prompt with the same plan. *)
Definition env_squats : environment :=
  mk_environment with_key (fun _ => None)
    (fun _ _ => inr (mk_response (inr "Do 10 squats."%string)))
    ticking_clock.

(** A service whose every call raises a quota error. *)
Definition env_quota : environment :=
  mk_environment with_key (fun _ => None)
    (fun _ _ => inl (mk_exn true "quota exceeded"))
    ticking_clock.

(** The credential is there, the model constructor raises. *)
Definition env_bad_model : environment :=
  mk_environment with_key (fun _ => Some (mk_exn true "boom"))
    (fun _ _ => inr (mk_response (inr "Do 10 squats."%string)))
    ticking_clock.

(** A service whose call is interrupted from outside: the raised object
    is not an instance of [Exception]. *)
Definition env_interrupt : environment :=
  mk_environment with_key (fun _ => None)
    (fun _ _ => inl (mk_exn false "KeyboardInterrupt"))
    ticking_clock.

(** A service that answers with a text that reads like a failure. *)
Definition env_sentinel : environment :=
  mk_environment with_key (fun _ => None)
    (fun _ _ => inr (mk_response (inr "An error occurred: quota exceeded"%string)))
    ticking_clock.

(** A clock that moves by a millisecond per read. *)
Definition fast_clock (n : nat) : datetime :=
  mk_datetime 2024 1 2 12 0 0 (Z.of_nat n mod 1000 * 1000).

Definition env_fast : environment :=
  mk_environment with_key (fun _ => None)
    (fun _ _ => inr (mk_response (inr "Do 10 squats."%string)))
    fast_clock.

(** The variable is set, to the empty string. *)
Definition env_empty_key : environment :=
  mk_environment (fun k => if String.eqb k "GOOGLE_API_KEY" then Some ""%string else None)
    (fun _ => None)
    (fun _ _ => inr (mk_response (inr "Do 10 squats."%string)))
    ticking_clock.

(** A service whose plan starts with a bullet, U+2022. *)
Definition env_bullets : environment :=
  mk_environment with_key (fun _ => None)
    (fun _ _ => inr (mk_response (inr "• 10 squats"%string)))
    ticking_clock.

(** A service whose error message holds a dash, U+2013. *)
Definition env_dash : environment :=
  mk_environment with_key (fun _ => None)
    (fun _ _ => inl (mk_exn true "quota exceeded – retry later"))
    ticking_clock.

(** Central European time around the end of summer time in 2024: at
    01:00:00 UTC on 27 October the offset drops from two hours to one. *)
Definition berlin_offset (posix_s : Z) : Z :=
  if posix_s <? 1729990800 then 7200 else 3600.

(** Calls made one hour apart, the first at 00:30:00 UTC that day. *)
Definition fallback_instants (n : nat) : Z :=
  (1729989000 + 3600 * Z.of_nat n) * 1000000.

Definition fallback_clock (n : nat) : datetime :=
  fromtimestamp berlin_offset (fallback_instants n).

Definition env_fallback : environment :=
  mk_environment with_key (fun _ => None)
    (fun _ _ => inr (mk_response (inr "Do 10 squats."%string)))
    fallback_clock.

(** * Properties *)

(** ** Strings *)

Lemma append_nil (b : string) : EmptyString +:+ b = b.
Proof. reflexivity. Qed.

Lemma append_cons (c : ascii) (a b : string) :
  String c a +:+ b = String c (a +:+ b).
Proof. reflexivity. Qed.

Lemma length_append (a b : string) :
  String.length (a +:+ b) = (String.length a + String.length b)%nat.
Proof.
  induction a as [|c a IH]; [reflexivity|].
  rewrite append_cons. cbn. now rewrite IH.
Qed.

Lemma append_assoc (a b c : string) : (a +:+ b) +:+ c = a +:+ (b +:+ c).
Proof.
  induction a as [|x a IH]; [reflexivity|].
  rewrite !append_cons. now f_equal.
Qed.

Lemma substring_skip (a s : string) (m : nat) :
  substring (String.length a) m (a +:+ s) = substring 0 m s.
Proof.
  induction a as [|c a IH]; [reflexivity|].
  rewrite append_cons. exact IH.
Qed.

Lemma substring_take (b c : string) :
  substring 0 (String.length b) (b +:+ c) = b.
Proof.
  induction b as [|x b IH].
  - rewrite append_nil. now destruct c.
  - rewrite append_cons. cbn. now f_equal.
Qed.

Lemma substring_all (s : string) : substring 0 (String.length s) s = s.
Proof. induction s as [|c s IH]; cbn; [reflexivity | now f_equal]. Qed.

Lemma substring_mid (a b c : string) :
  substring (String.length a) (String.length b) (a +:+ b +:+ c) = b.
Proof. rewrite substring_skip. apply substring_take. Qed.

Lemma append_inv_length (a a' b b' : string) :
  String.length a = String.length a' ->
  a +:+ b = a' +:+ b' -> a = a' /\ b = b'.
Proof.
  revert a'. induction a as [|c a IH]; intros [|c' a'] Hl H;
    try discriminate Hl.
  - now split.
  - rewrite !append_cons in H. injection H as -> H. injection Hl as Hl.
    destruct (IH _ Hl H) as [-> ->]. now split.
Qed.

(** ** The prompt builder *)

Lemma workout_prompt_format_eq (fl g : string) (d : Z) (eq : string) :
  workout_prompt_format (PyStr fl) (PyStr g) (PyInt d) (PyStr eq)
  = inr (prompt_of fl g d eq).
Proof. reflexivity. Qed.

(** The prompt sent by [generate_workout] is built before the guarded
    call; the outcome is decided by the reply alone. *)
Lemma generate_workout_run env (fl g : string) (d : Z) (eq : string) (w : world) :
  generate_workout env fl g d eq w =
  let p := prompt_of fl g d eq in
  let w1 := add_request p w in
  match reply env (List.length (w_requests w)) p with
  | inr s => Ret s w1
  | inl e =>
      if exn_is_Exception e
      then Ret ("An error occurred: " +:+ exn_str e)
               (add_ui (UiError ("❌ Error generating workout: " +:+ exn_str e)) w1)
      else Raise e w1
  end.
Proof.
  unfold generate_workout, bind at 1. rewrite workout_prompt_format_eq.
  cbn [lift_exn ret]. unfold try_except, bind, model_generate_content, reply.
  destruct (generate_content env _ _) as [e|r]; cbn.
  - destruct (exn_is_Exception e); reflexivity.
  - unfold response_text. destruct (text r) as [e|s]; cbn; [|reflexivity].
    destruct (exn_is_Exception e); reflexivity.
Qed.

(** C10: the built prompt is exactly the template text with the four
    placeholders replaced by [str] of the four inputs, and that is the
    string [generate_workout] sends to the service; for (Beginner,
    Weight Loss, 30, Bodyweight) it is the sentence written out below. *)
Theorem prompt_is_filled_template :
  (forall v_level v_goal v_duration v_equipment : py_value,
     workout_prompt_format v_level v_goal v_duration v_equipment =
     inr ("Create a personalized workout plan for a " +:+ py_str v_level
          +:+ " individual whose goal is " +:+ py_str v_goal
          +:+ ". The workout should last " +:+ py_str v_duration
          +:+ " minutes and use " +:+ py_str v_equipment
          +:+ " equipment. Provide step-by-step exercises with sets, reps, and rest intervals."))
  /\ (forall env (fl g : string) (d : Z) (eq : string) (w : world),
        w_requests (world_of (generate_workout env fl g d eq w)) =
        w_requests w ++
        ["Create a personalized workout plan for a " +:+ fl
         +:+ " individual whose goal is " +:+ g
         +:+ ". The workout should last " +:+ str_of_int d
         +:+ " minutes and use " +:+ eq
         +:+ " equipment. Provide step-by-step exercises with sets, reps, and rest intervals."])
  /\ workout_prompt_format (PyStr "Beginner") (PyStr "Weight Loss")
                           (PyInt 30) (PyStr "Bodyweight") =
     inr ("Create a personalized workout plan for a Beginner individual whose goal is Weight Loss. The workout should last 30 minutes and use Bodyweight equipment. Provide step-by-step exercises with sets, reps, and rest intervals."%string).
Proof.
  split; [|split].
  - intros. reflexivity.
  - intros. rewrite generate_workout_run. cbv zeta.
    destruct (reply env _ _) as [e|s]; [destruct (exn_is_Exception e)|];
      reflexivity.
  - vm_compute. reflexivity.
Qed.

(** C2: in the built prompt each of the four values stands, letter for
    letter, at its place in the template: the fitness level right after
    "... plan for a ", the goal after " individual whose goal is ", the
    duration (in decimal) after ". The workout should last " and the
    equipment after " minutes and use ". *)
Theorem prompt_contains_inputs (fl g : string) (d : Z) (eq : string) :
  exists p,
    workout_prompt_format (PyStr fl) (PyStr g) (PyInt d) (PyStr eq) = inr p /\
    let n1 := String.length "Create a personalized workout plan for a " in
    let n2 := (n1 + String.length fl
               + String.length " individual whose goal is ")%nat in
    let n3 := (n2 + String.length g
               + String.length ". The workout should last ")%nat in
    let n4 := (n3 + String.length (str_of_int d)
               + String.length " minutes and use ")%nat in
    substring n1 (String.length fl) p = fl /\
    substring n2 (String.length g) p = g /\
    substring n3 (String.length (str_of_int d)) p = str_of_int d /\
    substring n4 (String.length eq) p = eq.
Proof.
  exists (prompt_of fl g d eq). split; [reflexivity|].
  cbv zeta. unfold prompt_of.
  set (a := "Create a personalized workout plan for a "%string).
  set (b := " individual whose goal is "%string).
  set (c := ". The workout should last "%string).
  set (e := " minutes and use "%string).
  set (z := str_of_int d).
  repeat split.
  - apply substring_mid.
  - rewrite <- (append_assoc fl b), <- (append_assoc a (fl +:+ b)).
    replace (String.length a + String.length fl + String.length b)%nat
      with (String.length (a +:+ fl +:+ b))
      by (rewrite !length_append; lia).
    apply substring_mid.
  - rewrite <- (append_assoc g c), <- (append_assoc b (g +:+ c)),
      <- (append_assoc fl (b +:+ g +:+ c)),
      <- (append_assoc a (fl +:+ b +:+ g +:+ c)).
    replace (String.length a + String.length fl + String.length b
             + String.length g + String.length c)%nat
      with (String.length (a +:+ fl +:+ b +:+ g +:+ c))
      by (rewrite !length_append; lia).
    apply substring_mid.
  - rewrite <- (append_assoc z e), <- (append_assoc c (z +:+ e)),
      <- (append_assoc g (c +:+ z +:+ e)),
      <- (append_assoc b (g +:+ c +:+ z +:+ e)),
      <- (append_assoc fl (b +:+ g +:+ c +:+ z +:+ e)),
      <- (append_assoc a (fl +:+ b +:+ g +:+ c +:+ z +:+ e)).
    replace (String.length a + String.length fl + String.length b
             + String.length g + String.length c + String.length z
             + String.length e)%nat
      with (String.length (a +:+ fl +:+ b +:+ g +:+ c +:+ z +:+ e))
      by (rewrite !length_append; lia).
    apply substring_mid.
Qed.

(** C9: the prompt builder never fails, changes nothing, and yields one
    string that depends on the four inputs only: whatever the session,
    the page, the clock or the service, it is the string sent. *)
Theorem prompt_builder_deterministic (fl g : string) (d : Z) (eq : string) :
  exists p : string,
    workout_prompt_format (PyStr fl) (PyStr g) (PyInt d) (PyStr eq) = inr p /\
    (forall w : world,
       lift_exn (workout_prompt_format (PyStr fl) (PyStr g) (PyInt d) (PyStr eq)) w
       = Ret p w) /\
    (forall (env : environment) (w : world),
       w_requests (world_of (generate_workout env fl g d eq w))
       = w_requests w ++ [p]).
Proof.
  exists (prompt_of fl g d eq). split; [reflexivity|]. split.
  - intros w. reflexivity.
  - intros env w. rewrite generate_workout_run. cbv zeta.
    destruct (reply env _ _) as [e|s]; [destruct (exn_is_Exception e)|];
      reflexivity.
Qed.

(** C1: when the generation call (or the read of the response text)
    raises an [Exception], [generate_workout] returns normally; the
    string it returns is "An error occurred: " followed by [str(e)]. *)
Theorem generate_workout_catches env (fl g : string) (d : Z) (eq : string)
    (w : world) (e : exn) :
  reply env (List.length (w_requests w)) (prompt_of fl g d eq) = inl e ->
  exn_is_Exception e = true ->
  exists (r : string) (w' : world),
    generate_workout env fl g d eq w = Ret r w' /\
    r = "An error occurred: " +:+ exn_str e /\
    String.prefix "An error occurred:" r = true /\
    substring (String.length "An error occurred: ")
              (String.length (exn_str e)) r = exn_str e.
Proof.
  intros Hr He. rewrite generate_workout_run. cbv zeta. rewrite Hr, He.
  eexists _, _. split; [reflexivity|]. split; [reflexivity|]. split.
  - reflexivity.
  - rewrite substring_skip. apply substring_all.
Qed.

Lemma generate_workout_catches_witness :
  exists (r : string) (w' : world),
    generate_workout env_quota "Beginner" "Weight Loss" 30 "Bodyweight"
                     initial_world = Ret r w' /\
    r = "An error occurred: quota exceeded"%string /\
    String.prefix "An error occurred:" r = true /\
    substring 19 14 r = "quota exceeded"%string.
Proof.
  exact (generate_workout_catches env_quota "Beginner" "Weight Loss" 30
           "Bodyweight" initial_world (mk_exn true "quota exceeded")
           eq_refl eq_refl).
Defined.

(** ** Text a core font can encode *)

Lemma latin1_append_bounded (n : nat) :
  forall a b : string,
    (String.length a <= n)%nat -> latin1 a = true ->
    latin1 (a +:+ b) = latin1 b.
Proof.
  induction n as [|n IH]; intros a b Hlen Ha.
  - destruct a; [reflexivity | cbn in Hlen; lia].
  - destruct a as [|c a]; [reflexivity|].
    rewrite append_cons. cbn [latin1] in *. cbv zeta in *.
    destruct (nat_of_ascii c <? 128)%nat.
    + apply IH; [cbn in Hlen; lia | exact Ha].
    + destruct ((nat_of_ascii c =? 194)%nat || (nat_of_ascii c =? 195)%nat);
        [|discriminate Ha].
      destruct a as [|c' a]; [discriminate Ha|].
      rewrite append_cons.
      apply andb_prop in Ha as [Hc Ha]. rewrite Hc. cbn [andb].
      apply IH; [cbn in Hlen; lia | exact Ha].
Qed.

Lemma latin1_append (a b : string) :
  latin1 a = true -> latin1 (a +:+ b) = latin1 b.
Proof. apply (latin1_append_bounded (String.length a)). lia. Qed.

Lemma latin1_string_of_uint (u : Decimal.uint) :
  latin1 (NilEmpty.string_of_uint u) = true.
Proof. induction u; cbn; auto. Qed.

Lemma latin1_nilzero_uint (u : Decimal.uint) :
  latin1 (NilZero.string_of_uint u) = true.
Proof. destruct u; try reflexivity; apply latin1_string_of_uint. Qed.

Lemma latin1_str_of_int (z : Z) : latin1 (str_of_int z) = true.
Proof.
  unfold str_of_int, NilZero.string_of_int.
  destruct (Z.to_int z) as [u|u]; [apply latin1_nilzero_uint|].
  change (String "-" (NilZero.string_of_uint u))
    with ("-" +:+ NilZero.string_of_uint u).
  rewrite latin1_append by reflexivity. apply latin1_nilzero_uint.
Qed.

Lemma latin1_selected (options : list string) (i : nat) :
  forallb latin1 options = true -> latin1 (selected options i) = true.
Proof.
  intros Ho. unfold selected. rewrite forallb_forall in Ho.
  destruct (nth_in_or_default i options (hd EmptyString options)) as [Hin | ->].
  - now apply Ho.
  - destruct options as [|o options]; [reflexivity|]. apply Ho. now left.
Qed.

(** The fixed parts of the page are plain; whether the page can be
    encoded depends on the four texts alone. *)
Lemma page_encodable_pdf_page (wp fl g : string) (d : Z) (eq : string) :
  page_encodable (pdf_page wp fl g d eq)
  = latin1 fl && (latin1 g && (latin1 eq && latin1 wp)).
Proof.
  unfold page_encodable, pdf_page. cbn [doc_text forallb].
  rewrite (latin1_append "Fitness Level: " fl) by reflexivity.
  rewrite (latin1_append "Goal: " g) by reflexivity.
  rewrite (latin1_append "Duration: " (str_of_int d +:+ " minutes")) by reflexivity.
  rewrite (latin1_append (str_of_int d) " minutes") by apply latin1_str_of_int.
  rewrite (latin1_append "Equipment: " eq) by reflexivity.
  change (latin1 "Personalized Workout Plan") with true.
  change (latin1 " minutes") with true.
  cbn [andb]. now rewrite andb_true_r.
Qed.

(** With the values of the form, it depends on the plan text alone. *)
Lemma page_encodable_form (wp : string) (i j k : nat) (d : Z) :
  page_encodable (pdf_page wp (selected fitness_options i)
                           (selected goal_options j) d
                           (selected equipment_options k))
  = latin1 wp.
Proof.
  rewrite page_encodable_pdf_page.
  rewrite !latin1_selected by reflexivity. reflexivity.
Qed.

(** ** The document renderer *)

Lemma create_pdf_run env (wp fl g : string) (d : Z) (eq : string) (w : world) :
  create_pdf env wp fl g d eq w =
  if page_encodable (pdf_page wp fl g d eq)
  then Ret (pdf_name (now env (w_clock w)))
           (set_fs (<[pdf_name (now env (w_clock w)) := pdf_page wp fl g d eq]>
                      (w_fs w))
                   (tick w))
  else Raise UnicodeEncodeError (tick w).
Proof.
  unfold create_pdf, bind, datetime_now, pdf_output.
  destruct (page_encodable _); reflexivity.
Qed.

(** C3, as stated, fails: a body with a character beyond latin-1 (here
    a bullet) makes [create_pdf] raise at [pdf.output]; no document is
    emitted. *)
Lemma create_pdf_bullet_raises :
  create_pdf env_squats "• 10 squats" "Beginner" "Weight Loss" 30 "Bodyweight"
             initial_world
  = Raise UnicodeEncodeError (tick initial_world)
  /\ w_fs (tick initial_world) = ∅.
Proof. split; reflexivity. Qed.

(** C3, amended: when the four inputs and the response text can be
    encoded in latin-1, the document [create_pdf] writes shows, in this
    order and nothing else, the title, the four lines
    "Fitness Level: X", "Goal: Y", "Duration: Z minutes",
    "Equipment: W" and the whole body text; so it does for (Beginner,
    Weight Loss, 30, Bodyweight) and the body "Do 10 squats.".
    Otherwise [create_pdf] raises and writes nothing. *)
Theorem create_pdf_document env (wp fl g : string) (d : Z) (eq : string)
    (w : world) :
  latin1 fl = true -> latin1 g = true -> latin1 eq = true ->
  (latin1 wp = true ->
   exists (filename : string) (w' : world) (doc : pdf_doc),
     create_pdf env wp fl g d eq w = Ret filename w' /\
     w_fs w' !! filename = Some doc /\
     doc_text doc =
       [ "Personalized Workout Plan"%string;
         "Fitness Level: " +:+ fl;
         "Goal: " +:+ g;
         "Duration: " +:+ str_of_int d +:+ " minutes";
         "Equipment: " +:+ eq;
         wp ])
  /\ (latin1 wp = false ->
      exists w' : world,
        create_pdf env wp fl g d eq w = Raise UnicodeEncodeError w' /\
        w_fs w' = w_fs w)
  /\ (exists (filename : string) (w' : world) (doc : pdf_doc),
        create_pdf env "Do 10 squats." "Beginner" "Weight Loss" 30
                   "Bodyweight" w = Ret filename w' /\
        w_fs w' !! filename = Some doc /\
        doc_text doc =
          [ "Personalized Workout Plan"; "Fitness Level: Beginner";
            "Goal: Weight Loss"; "Duration: 30 minutes";
            "Equipment: Bodyweight"; "Do 10 squats." ]%string).
Proof.
  intros Hfl Hg Heq. split; [|split].
  - intros Hwp. rewrite create_pdf_run, page_encodable_pdf_page.
    rewrite Hfl, Hg, Heq, Hwp. cbn [andb].
    eexists _, _, _. split; [reflexivity|].
    split; [apply lookup_insert_eq | reflexivity].
  - intros Hwp. rewrite create_pdf_run, page_encodable_pdf_page.
    rewrite Hfl, Hg, Heq, Hwp. cbn [andb].
    eexists. split; reflexivity.
  - rewrite create_pdf_run.
    change (page_encodable
              (pdf_page "Do 10 squats." "Beginner" "Weight Loss" 30 "Bodyweight"))
      with true.
    eexists _, _, _. split; [reflexivity|].
    split; [apply lookup_insert_eq | vm_compute; reflexivity].
Qed.

Lemma create_pdf_document_witness :
  (latin1 "Stretch for 5 minutes." = true ->
   exists (filename : string) (w' : world) (doc : pdf_doc),
     create_pdf env_squats "Stretch for 5 minutes." "Advanced" "Endurance" 45
                "Dumbbells" initial_world = Ret filename w' /\
     w_fs w' !! filename = Some doc /\
     doc_text doc =
       [ "Personalized Workout Plan"%string;
         "Fitness Level: " +:+ "Advanced";
         "Goal: " +:+ "Endurance";
         "Duration: " +:+ str_of_int 45 +:+ " minutes";
         "Equipment: " +:+ "Dumbbells";
         "Stretch for 5 minutes."%string ])
  /\ (latin1 "Stretch for 5 minutes." = false ->
      exists w' : world,
        create_pdf env_squats "Stretch for 5 minutes." "Advanced" "Endurance" 45
                   "Dumbbells" initial_world = Raise UnicodeEncodeError w' /\
        w_fs w' = w_fs initial_world)
  /\ (exists (filename : string) (w' : world) (doc : pdf_doc),
        create_pdf env_squats "Do 10 squats." "Beginner" "Weight Loss" 30
                   "Bodyweight" initial_world = Ret filename w' /\
        w_fs w' !! filename = Some doc /\
        doc_text doc =
          [ "Personalized Workout Plan"; "Fitness Level: Beginner";
            "Goal: Weight Loss"; "Duration: 30 minutes";
            "Equipment: Bodyweight"; "Do 10 squats." ]%string).
Proof.
  exact (create_pdf_document env_squats "Stretch for 5 minutes." "Advanced"
           "Endurance" 45 "Dumbbells" initial_world eq_refl eq_refl eq_refl).
Defined.

(** ** The file name *)

Lemma pad2_table : forallb (pad_ok 2) (seq 0 (Z.to_nat 100)) = true.
Proof. vm_compute. reflexivity. Qed.

Lemma pad4_table : forallb (pad_ok 4) (seq 0 (Z.to_nat 10000)) = true.
Proof. vm_compute. reflexivity. Qed.

Lemma pad_ok_spec (w : nat) (bound : Z) (z : Z) :
  forallb (pad_ok w) (seq 0 (Z.to_nat bound)) = true ->
  0 <= z < bound ->
  String.length (zero_pad w z) = w /\
  all_digits (zero_pad w z) = true /\
  int_of_str (zero_pad w z) = Some z.
Proof.
  intros Ht Hz. rewrite forallb_forall in Ht.
  specialize (Ht (Z.to_nat z)).
  assert (Hin : In (Z.to_nat z) (seq 0 (Z.to_nat bound))) by (apply in_seq; lia).
  apply Ht in Hin. unfold pad_ok in Hin. rewrite Z2Nat.id in Hin by lia.
  cbv zeta in Hin.
  apply andb_prop in Hin as [Hin H3]. apply andb_prop in Hin as [H1 H2].
  split; [now apply Nat.eqb_eq|]. split; [exact H2|].
  destruct (int_of_str (zero_pad w z)) as [z'|]; [|discriminate].
  apply Z.eqb_eq in H3. now subst.
Qed.

Lemma pad2_spec (z : Z) :
  0 <= z < 100 ->
  String.length (zero_pad 2 z) = 2%nat /\
  all_digits (zero_pad 2 z) = true /\
  int_of_str (zero_pad 2 z) = Some z.
Proof. intros Hz. now apply (pad_ok_spec 2 100 z pad2_table). Qed.

Lemma pad4_spec (z : Z) :
  0 <= z < 10000 ->
  String.length (zero_pad 4 z) = 4%nat /\
  all_digits (zero_pad 4 z) = true /\
  int_of_str (zero_pad 4 z) = Some z.
Proof. intros Hz. now apply (pad_ok_spec 4 10000 z pad4_table). Qed.

Lemma all_digits_append (a b : string) :
  all_digits (a +:+ b) = all_digits a && all_digits b.
Proof.
  induction a as [|c a IH]; [reflexivity|].
  rewrite append_cons. cbn. rewrite IH. now rewrite andb_assoc.
Qed.

Lemma append_nil_r (a : string) : a +:+ EmptyString = a.
Proof.
  induction a as [|c a IH]; [reflexivity|].
  rewrite append_cons. now f_equal.
Qed.

Lemma stamp_eq (t : datetime) :
  strftime t "%Y%m%d_%H%M%S" =
  zero_pad 4 (year t) +:+ zero_pad 2 (month t) +:+ zero_pad 2 (day t)
  +:+ "_" +:+ zero_pad 2 (hour t) +:+ zero_pad 2 (minute t)
  +:+ zero_pad 2 (second t).
Proof.
  rewrite <- (append_nil_r (zero_pad 2 (second t))). reflexivity.
Qed.

Lemma days_in_month_le (y m : Z) : days_in_month y m <= 31.
Proof.
  unfold days_in_month.
  destruct (m =? 2); [destruct (is_leap y); lia|].
  destruct ((m =? 4) || (m =? 6) || (m =? 9) || (m =? 11)); lia.
Qed.

Lemma valid_datetime_fields (t : datetime) :
  valid_datetime t ->
  0 <= year t < 10000 /\ 0 <= month t < 100 /\ 0 <= day t < 100 /\
  0 <= hour t < 100 /\ 0 <= minute t < 100 /\ 0 <= second t < 100.
Proof.
  unfold valid_datetime, MINYEAR, MAXYEAR.
  pose proof (days_in_month_le (year t) (month t)). lia.
Qed.

Lemma zero_pad_inj (w : nat) (a b : Z) :
  int_of_str (zero_pad w a) = Some a ->
  int_of_str (zero_pad w b) = Some b ->
  zero_pad w a = zero_pad w b -> a = b.
Proof. intros Ha Hb E. rewrite E in Ha. congruence. Qed.

(** Equal stamps come from equal calendar fields. *)
Lemma stamp_inj (t1 t2 : datetime) :
  valid_datetime t1 -> valid_datetime t2 ->
  strftime t1 "%Y%m%d_%H%M%S" = strftime t2 "%Y%m%d_%H%M%S" ->
  year t1 = year t2 /\ month t1 = month t2 /\ day t1 = day t2 /\
  hour t1 = hour t2 /\ minute t1 = minute t2 /\ second t1 = second t2.
Proof.
  intros V1 V2 E. rewrite !stamp_eq in E.
  apply valid_datetime_fields in V1 as (Y1 & M1 & D1 & h1 & m1 & s1).
  apply valid_datetime_fields in V2 as (Y2 & M2 & D2 & h2 & m2 & s2).
  apply pad4_spec in Y1 as (LY1 & _ & RY1), Y2 as (LY2 & _ & RY2).
  apply pad2_spec in M1 as (LM1 & _ & RM1), M2 as (LM2 & _ & RM2).
  apply pad2_spec in D1 as (LD1 & _ & RD1), D2 as (LD2 & _ & RD2).
  apply pad2_spec in h1 as (Lh1 & _ & Rh1), h2 as (Lh2 & _ & Rh2).
  apply pad2_spec in m1 as (Lm1 & _ & Rm1), m2 as (Lm2 & _ & Rm2).
  apply pad2_spec in s1 as (Ls1 & _ & Rs1), s2 as (Ls2 & _ & Rs2).
  apply append_inv_length in E as [EY E]; [|congruence].
  apply append_inv_length in E as [EM E]; [|congruence].
  apply append_inv_length in E as [ED E]; [|congruence].
  apply append_inv_length in E as [_ E]; [|reflexivity].
  apply append_inv_length in E as [Eh E]; [|congruence].
  apply append_inv_length in E as [Em Es]; [|congruence].
  repeat split; eauto using zero_pad_inj.
Qed.

(** Two clock readings with equal calendar fields are less than a
    second apart. *)
Lemma same_second_close (t1 t2 : datetime) :
  valid_datetime t1 -> valid_datetime t2 ->
  year t1 = year t2 -> month t1 = month t2 -> day t1 = day t2 ->
  hour t1 = hour t2 -> minute t1 = minute t2 -> second t1 = second t2 ->
  Z.abs (datetime_sub t1 t2) < 1000000.
Proof.
  intros V1 V2 EY EM ED Eh Em Es.
  unfold datetime_sub, to_microseconds, toordinal.
  rewrite EY, EM, ED, Eh, Em, Es.
  destruct V1 as (_ & _ & _ & _ & _ & _ & U1).
  destruct V2 as (_ & _ & _ & _ & _ & _ & U2). lia.
Qed.

(** C4, as stated, fails on its second part: two calls made one hour
    apart across the end of summer time read the same local time from
    [datetime.now()] and get the same file name. *)
Lemma fallback_hour_same_name :
  fallback_instants 1 - fallback_instants 0 = 3600 * 1000000 /\
  now env_fallback 0 = mk_datetime 2024 10 27 2 30 0 0 /\
  now env_fallback 1 = mk_datetime 2024 10 27 2 30 0 0 /\
  create_pdf env_fallback "Do 10 squats." "Beginner" "Weight Loss" 30 "Bodyweight"
             initial_world
  = Ret "Workout_Plan_20241027_023000.pdf"
        (set_fs (<["Workout_Plan_20241027_023000.pdf"%string :=
                    pdf_page "Do 10 squats." "Beginner" "Weight Loss" 30 "Bodyweight"]> ∅)
                (tick initial_world)) /\
  create_pdf env_fallback "Do 10 squats." "Beginner" "Weight Loss" 30 "Bodyweight"
             (tick initial_world)
  = Ret "Workout_Plan_20241027_023000.pdf"
        (set_fs (<["Workout_Plan_20241027_023000.pdf"%string :=
                    pdf_page "Do 10 squats." "Beginner" "Weight Loss" 30 "Bodyweight"]> ∅)
                (tick (tick initial_world))).
Proof.
  split; [reflexivity|]. split; [vm_compute; reflexivity|].
  split; [vm_compute; reflexivity|].
  split; rewrite create_pdf_run;
    change (page_encodable
              (pdf_page "Do 10 squats." "Beginner" "Weight Loss" 30 "Bodyweight"))
      with true; cbv iota;
    (replace (pdf_name _) with "Workout_Plan_20241027_023000.pdf"%string
       by (vm_compute; reflexivity)); reflexivity.
Qed.

(** C4, amended: when the page can be encoded and the clock reads a
    valid date, [create_pdf] returns the name "Workout_Plan_", eight
    digits (year, month, day), "_", six digits (hour, minute, second)
    and ".pdf": a stamp of fourteen digits laid out as YYYYMMDD_HHMMSS.
    Two calls whose readings of [datetime.now()] are at least one
    second apart return different names. *)
Theorem pdf_filename_stamp env
    (wp1 fl1 g1 : string) (d1 : Z) (eq1 : string) (w1 : world)
    (wp2 fl2 g2 : string) (d2 : Z) (eq2 : string) (w2 : world) :
  valid_datetime (now env (w_clock w1)) ->
  valid_datetime (now env (w_clock w2)) ->
  page_encodable (pdf_page wp1 fl1 g1 d1 eq1) = true ->
  page_encodable (pdf_page wp2 fl2 g2 d2 eq2) = true ->
  exists (f1 f2 date1 time1 date2 time2 : string) (w1' w2' : world),
    create_pdf env wp1 fl1 g1 d1 eq1 w1 = Ret f1 w1' /\
    create_pdf env wp2 fl2 g2 d2 eq2 w2 = Ret f2 w2' /\
    f1 = "Workout_Plan_" +:+ date1 +:+ "_" +:+ time1 +:+ ".pdf" /\
    f2 = "Workout_Plan_" +:+ date2 +:+ "_" +:+ time2 +:+ ".pdf" /\
    String.length date1 = 8%nat /\ all_digits date1 = true /\
    String.length time1 = 6%nat /\ all_digits time1 = true /\
    String.length date2 = 8%nat /\ all_digits date2 = true /\
    String.length time2 = 6%nat /\ all_digits time2 = true /\
    (1000000 <= Z.abs (datetime_sub (now env (w_clock w1)) (now env (w_clock w2)))
     -> f1 <> f2).
Proof.
  intros V1 V2 E1 E2. rewrite !create_pdf_run, E1, E2.
  set (t1 := now env (w_clock w1)) in *. set (t2 := now env (w_clock w2)) in *.
  exists (pdf_name t1), (pdf_name t2),
    (zero_pad 4 (year t1) +:+ zero_pad 2 (month t1) +:+ zero_pad 2 (day t1)),
    (zero_pad 2 (hour t1) +:+ zero_pad 2 (minute t1) +:+ zero_pad 2 (second t1)),
    (zero_pad 4 (year t2) +:+ zero_pad 2 (month t2) +:+ zero_pad 2 (day t2)),
    (zero_pad 2 (hour t2) +:+ zero_pad 2 (minute t2) +:+ zero_pad 2 (second t2)).
  eexists _, _. split; [reflexivity|]. split; [reflexivity|].
  pose proof (valid_datetime_fields _ V1) as (Y1 & M1 & D1 & h1 & m1 & s1).
  pose proof (valid_datetime_fields _ V2) as (Y2 & M2 & D2 & h2 & m2 & s2).
  apply pad4_spec in Y1 as (LY1 & AY1 & _), Y2 as (LY2 & AY2 & _).
  apply pad2_spec in M1 as (LM1 & AM1 & _), M2 as (LM2 & AM2 & _).
  apply pad2_spec in D1 as (LD1 & AD1 & _), D2 as (LD2 & AD2 & _).
  apply pad2_spec in h1 as (Lh1 & Ah1 & _), h2 as (Lh2 & Ah2 & _).
  apply pad2_spec in m1 as (Lm1 & Am1 & _), m2 as (Lm2 & Am2 & _).
  apply pad2_spec in s1 as (Ls1 & As1 & _), s2 as (Ls2 & As2 & _).
  split; [unfold pdf_name; rewrite stamp_eq, !append_assoc; reflexivity|].
  split; [unfold pdf_name; rewrite stamp_eq, !append_assoc; reflexivity|].
  rewrite !length_append, !all_digits_append.
  rewrite LY1, LM1, LD1, Lh1, Lm1, Ls1, LY2, LM2, LD2, Lh2, Lm2, Ls2.
  rewrite AY1, AM1, AD1, Ah1, Am1, As1, AY2, AM2, AD2, Ah2, Am2, As2.
  repeat (split; [reflexivity|]).
  intros Hfar Hname. unfold pdf_name in Hname.
  apply (inj (String.app "Workout_Plan_")) in Hname.
  apply append_inv_length in Hname as [Hstamp _].
  - destruct (stamp_inj t1 t2 V1 V2 Hstamp) as (EY & EM & ED & Eh & Em & Es).
    pose proof (same_second_close t1 t2 V1 V2 EY EM ED Eh Em Es). lia.
  - rewrite !stamp_eq, !length_append. congruence.
Qed.

(** ** Runs of the script, block by block *)

Lemma only_ui_refl w : only_ui w w.
Proof. repeat split; try reflexivity. exists []. now rewrite app_nil_r. Qed.

Lemma only_ui_trans w1 w2 w3 : only_ui w1 w2 -> only_ui w2 w3 -> only_ui w1 w3.
Proof.
  intros ([e1 U1] & F1 & S1 & W1 & R1 & C1) ([e2 U2] & F2 & S2 & W2 & R2 & C2).
  repeat split; try congruence. exists (e1 ++ e2). rewrite U2, U1. now rewrite app_assoc.
Qed.

Lemma only_ui_add ev w : only_ui w (add_ui ev w).
Proof. repeat split; try reflexivity. now exists [ev]. Qed.

Lemma show_entry_run i e w : exists w', show_entry i e w = Ret tt w' /\ only_ui w w'.
Proof.
  eexists. split; [reflexivity|].
  repeat split; try reflexivity. cbn. eexists. rewrite <- !app_assoc. reflexivity.
Qed.

Lemma show_history_run h : forall i w, exists w', show_history i h w = Ret tt w' /\ only_ui w w'.
Proof.
  induction h as [|e h IH]; intros i w.
  - exists w. split; [reflexivity | apply only_ui_refl].
  - cbn [show_history]. unfold bind at 1.
    destruct (show_entry_run i e w) as (w1 & -> & U1).
    destruct (IH (S i) w1) as (w2 & -> & U2).
    exists w2. split; [reflexivity | eapply only_ui_trans; eauto].
Qed.

Lemma history_section_run w : exists w', history_section w = Ret tt w' /\ only_ui w w'.
Proof.
  unfold history_section, bind at 1, get_world.
  destruct (w_session w !! history_key) as [[|e h]|].
  - exists w. split; [reflexivity | apply only_ui_refl].
  - unfold bind at 1. unfold st_subheader at 1, st_emit at 1, modify at 1.
    destruct (show_history_run (e :: h) 0%nat (add_ui (UiSubheader "Workout History") w)) as (w2 & -> & U2).
    exists w2. split; [reflexivity|]. eapply only_ui_trans; [apply only_ui_add | eauto].
  - exists w. split; [reflexivity | apply only_ui_refl].
Qed.

Lemma sidebar_form_run w : exists w', sidebar_form w = Ret (selected fitness_options (sel_fitness (w_widgets w)), selected goal_options (sel_goal (w_widgets w)), num_duration (w_widgets w), selected equipment_options (sel_equipment (w_widgets w)), btn_generate (w_widgets w)) w' /\ only_ui w w'.
Proof.
  eexists. split; [reflexivity|].
  repeat split; try reflexivity. cbn. eexists. rewrite <- !app_assoc. reflexivity.
Qed.

Lemma error_messages_app (a b : list ui_event) :
  error_messages (a ++ b) = error_messages a ++ error_messages b.
Proof.
  induction a as [|ev a IH]; [reflexivity|].
  destruct ev; cbn; try exact IH. now f_equal.
Qed.

Lemma show_history_quiet (h : list entry) :
  forall (i : nat) (w : world),
  exists (w' : world) (evs : list ui_event),
    show_history i h w = Ret tt w' /\
    w_ui w' = w_ui w ++ evs /\ error_messages evs = [] /\
    w_fs w' = w_fs w /\ w_session w' = w_session w /\
    w_widgets w' = w_widgets w /\ w_requests w' = w_requests w /\
    w_clock w' = w_clock w.
Proof.
  induction h as [|e h IH]; intros i w.
  - exists w, []. split; [reflexivity|]. rewrite app_nil_r. now repeat split.
  - cbn [show_history]. unfold bind at 1.
    destruct (IH (S i)
                (add_ui UiExit
                   (add_ui (UiMarkdown (plan e))
                      (add_ui (UiWrite ("**Equipment:** " +:+ equipment e))
                         (add_ui (UiWrite ("**Duration:** " +:+ str_of_int (duration e) +:+ " minutes"))
                            (add_ui (UiWrite ("**Goal:** " +:+ goal e))
                               (add_ui (UiWrite ("**Fitness Level:** " +:+ fitness_level e))
                                  (add_ui (UiEnter (Expander ("Workout " +:+ str_of_int (Z.of_nat i + 1) +:+ " - " +:+ date e))) w))))))))
      as (w' & evs & Hrun & Hu & He & Hf & Hs & Hw & Hq & Hc).
    eexists w', _. split; [exact Hrun|]. split.
    { rewrite Hu. cbn [add_ui w_ui]. rewrite <- !app_assoc. cbn [app]. reflexivity. }
    split; [cbn; exact He|]. repeat split; assumption.
Qed.

(** The history section only adds to the page, and shows no error. *)
Lemma history_section_page (w : world) :
  exists (w' : world) (evs : list ui_event),
    history_section w = Ret tt w' /\
    w_ui w' = w_ui w ++ evs /\ error_messages evs = [] /\
    w_fs w' = w_fs w /\ w_session w' = w_session w /\
    w_widgets w' = w_widgets w /\ w_requests w' = w_requests w /\
    w_clock w' = w_clock w.
Proof.
  unfold history_section, bind at 1, get_world.
  destruct (w_session w !! history_key) as [[|e h]|].
  - exists w, []. split; [reflexivity|]. rewrite app_nil_r. now repeat split.
  - unfold bind at 1, st_subheader at 1, st_emit at 1, modify at 1.
    destruct (show_history_quiet (e :: h) 0%nat
                (add_ui (UiSubheader "Workout History") w))
      as (w' & evs & -> & Hu & He & Hf & Hs & Hw & Hq & Hc).
    eexists w', _. split; [reflexivity|]. split.
    { rewrite Hu. cbn [add_ui w_ui]. rewrite <- app_assoc. reflexivity. }
    split; [cbn; exact He|]. repeat split; assumption.
  - exists w, []. split; [reflexivity|]. rewrite app_nil_r. now repeat split.
Qed.

Lemma sidebar_form_page (w : world) :
  exists w',
    sidebar_form w =
      Ret (selected fitness_options (sel_fitness (w_widgets w)),
           selected goal_options (sel_goal (w_widgets w)),
           num_duration (w_widgets w),
           selected equipment_options (sel_equipment (w_widgets w)),
           btn_generate (w_widgets w)) w' /\
    w_ui w' = w_ui w ++ skipn 3 form_events /\
    w_fs w' = w_fs w /\ w_session w' = w_session w /\
    w_widgets w' = w_widgets w /\ w_requests w' = w_requests w /\
    w_clock w' = w_clock w.
Proof.
  eexists. split; [reflexivity|].
  split; [|repeat split; reflexivity].
  cbn. rewrite <- !app_assoc. reflexivity.
Qed.

(** The body of [if generate_button:] when the reply is a text or a
    caught failure: everything up to [create_pdf] is done; the file and
    the download button follow when the page can be encoded, and
    [pdf.output] raises when it cannot. *)
Lemma on_generate_click env (fl g : string) (d : Z) (eq : string) (w : world)
    (h : list entry) :
  w_session w !! history_key = Some h ->
  match reply env (List.length (w_requests w)) (prompt_of fl g d eq) with
  | inl e => exn_is_Exception e = true
  | inr _ => True
  end ->
  let r := reply env (List.length (w_requests w)) (prompt_of fl g d eq) in
  let p := plan_text r in
  let doc := pdf_page p fl g d eq in
  let name := pdf_name (now env (S (w_clock w))) in
  exists w',
    on_generate env fl g d eq w =
      (if page_encodable doc then Ret tt w' else Raise UnicodeEncodeError w') /\
    w_session w' =
      <[history_key :=
          h ++ [mk_entry p fl g d eq
                  (strftime (now env (w_clock w)) "%Y-%m-%d %H:%M:%S")]]>
        (w_session w) /\
    w_fs w' = (if page_encodable doc then <[name := doc]> (w_fs w) else w_fs w) /\
    w_requests w' = w_requests w ++ [prompt_of fl g d eq] /\
    w_clock w' = S (S (w_clock w)) /\
    w_widgets w' = w_widgets w /\
    w_ui w' =
      w_ui w
      ++ [UiEnter (Spinner "Generating your workout plan...")]
      ++ match r with
         | inl e => [UiError ("❌ Error generating workout: " +:+ exn_str e)]
         | inr _ => []
         end
      ++ [ UiSuccess "✅ Workout plan generated successfully!";
           UiExit;
           UiSubheader "Your Workout Plan";
           UiMarkdown p ]
      ++ (if page_encodable doc
          then [UiDownloadButton "Download as PDF" doc name "application/pdf"]
          else []).
Proof.
  intros Hh Hr. cbv zeta.
  unfold on_generate, bind at 1, with_ at 1, bind at 1.
  rewrite generate_workout_run. cbv zeta.
  change (w_requests (add_ui _ w)) with (w_requests w).
  destruct (reply env _ _) as [e|s].
  - rewrite Hr.
    unfold bind, datetime_now, history_append.
    cbn -[strftime pdf_name pdf_page prompt_of insert lookup create_pdf].
    rewrite Hh.
    cbn -[strftime pdf_name pdf_page prompt_of insert lookup create_pdf].
    rewrite create_pdf_run.
    cbn -[strftime pdf_name pdf_page prompt_of insert lookup page_encodable].
    destruct (page_encodable _).
    + unfold open_rb.
      cbn -[strftime pdf_name pdf_page prompt_of insert lookup].
      rewrite lookup_insert_eq.
      eexists. split; [reflexivity|].
      cbn -[strftime pdf_name pdf_page prompt_of insert lookup].
      repeat (split; [reflexivity|]). rewrite <- !app_assoc. reflexivity.
    + eexists. split; [reflexivity|].
      cbn -[strftime pdf_name pdf_page prompt_of insert lookup].
      repeat (split; [reflexivity|]). rewrite <- !app_assoc. reflexivity.
  - unfold bind, datetime_now, history_append.
    cbn -[strftime pdf_name pdf_page prompt_of insert lookup create_pdf].
    rewrite Hh.
    cbn -[strftime pdf_name pdf_page prompt_of insert lookup create_pdf].
    rewrite create_pdf_run.
    cbn -[strftime pdf_name pdf_page prompt_of insert lookup page_encodable].
    destruct (page_encodable _).
    + unfold open_rb.
      cbn -[strftime pdf_name pdf_page prompt_of insert lookup].
      rewrite lookup_insert_eq.
      eexists. split; [reflexivity|].
      cbn -[strftime pdf_name pdf_page prompt_of insert lookup].
      repeat (split; [reflexivity|]). rewrite <- !app_assoc. reflexivity.
    + eexists. split; [reflexivity|].
      cbn -[strftime pdf_name pdf_page prompt_of insert lookup].
      repeat (split; [reflexivity|]). rewrite <- !app_assoc. reflexivity.
Qed.

Lemma init_history_run w :
  exists w', init_history w = Ret tt w' /\
    w_session w' !! history_key = Some (history w) /\
    history w' = history w /\
    w_ui w' = w_ui w /\ w_fs w' = w_fs w /\ w_widgets w' = w_widgets w /\
    w_requests w' = w_requests w /\ w_clock w' = w_clock w.
Proof.
  unfold init_history, history.
  destruct (w_session w !! history_key) as [h|] eqn:Hh.
  - exists w. rewrite Hh. repeat split; reflexivity.
  - eexists. split; [reflexivity|]. cbn. rewrite lookup_insert_eq. repeat split; reflexivity.
Qed.

(** The run of [main] up to the [if generate_button:] of line 114. *)
Lemma main_prefix env (w : world) :
  exists w2,
    main env w =
      ((if btn_generate (w_widgets w)
        then on_generate env
               (selected fitness_options (sel_fitness (w_widgets w)))
               (selected goal_options (sel_goal (w_widgets w)))
               (num_duration (w_widgets w))
               (selected equipment_options (sel_equipment (w_widgets w)))
        else ret tt);;
       history_section) w2 /\
    w_session w2 !! history_key = Some (history w) /\
    w_ui w2 = w_ui w ++ form_events /\
    w_fs w2 = w_fs w /\ w_widgets w2 = w_widgets w /\
    w_requests w2 = w_requests w /\ w_clock w2 = w_clock w.
Proof.
  unfold main. unfold bind at 1, st_markdown at 1, st_emit at 1, modify at 1.
  unfold bind at 1, st_title at 1, st_emit at 1, modify at 1.
  unfold bind at 1, st_markdown at 1, st_emit at 1, modify at 1.
  set (w0 := add_ui _ (add_ui _ (add_ui _ w))).
  unfold bind at 1.
  destruct (sidebar_form_page w0) as (w1 & -> & Hu1 & Hf1 & Hs1 & Hw1 & Hq1 & Hc1).
  change (w_widgets w0) with (w_widgets w).
  unfold bind at 1.
  destruct (init_history_run w1) as (w2 & -> & Hk & Hh2 & Hu2 & Hf2 & Hw2 & Hq2 & Hc2).
  subst w0. cbn in Hu1, Hf1, Hs1, Hw1, Hq1, Hc1.
  exists w2. split; [reflexivity|].
  split. { rewrite Hk. unfold history. now rewrite Hs1. }
  split. { rewrite Hu2, Hu1. rewrite <- !app_assoc. reflexivity. }
  repeat split; congruence.
Qed.

(** A run of [main] started by a click, when the reply is a text or a
    caught failure. *)
Lemma main_click env (w : world) :
  btn_generate (w_widgets w) = true ->
  let ws := w_widgets w in
  let fl := selected fitness_options (sel_fitness ws) in
  let g := selected goal_options (sel_goal ws) in
  let d := num_duration ws in
  let eq := selected equipment_options (sel_equipment ws) in
  let r := reply env (List.length (w_requests w)) (prompt_of fl g d eq) in
  match r with
  | inl e => exn_is_Exception e = true
  | inr _ => True
  end ->
  let p := plan_text r in
  let doc := pdf_page p fl g d eq in
  let name := pdf_name (now env (S (w_clock w))) in
  exists (w' : world) (post : list ui_event),
    main env w = (if latin1 p then Ret tt w' else Raise UnicodeEncodeError w') /\
    history w' =
      history w ++ [mk_entry p fl g d eq
                      (strftime (now env (w_clock w)) "%Y-%m-%d %H:%M:%S")] /\
    w_fs w' = (if latin1 p then <[name := doc]> (w_fs w) else w_fs w) /\
    w_requests w' = w_requests w ++ [prompt_of fl g d eq] /\
    w_clock w' = S (S (w_clock w)) /\
    w_widgets w' = w_widgets w /\
    w_ui w' =
      w_ui w ++ form_events
      ++ [UiEnter (Spinner "Generating your workout plan...")]
      ++ match r with
         | inl e => [UiError ("❌ Error generating workout: " +:+ exn_str e)]
         | inr _ => []
         end
      ++ [ UiSuccess "✅ Workout plan generated successfully!";
           UiExit;
           UiSubheader "Your Workout Plan";
           UiMarkdown p ]
      ++ (if latin1 p
          then UiDownloadButton "Download as PDF" doc name "application/pdf" :: post
          else []) /\
    error_messages post = [].
Proof.
  intros Hb. cbv zeta. intros Hr.
  destruct (main_prefix env w) as (w2 & -> & Hk & Hu2 & Hf2 & Hw2 & Hq2 & Hc2).
  rewrite Hb. unfold bind at 1.
  destruct (on_generate_click env
              (selected fitness_options (sel_fitness (w_widgets w)))
              (selected goal_options (sel_goal (w_widgets w)))
              (num_duration (w_widgets w))
              (selected equipment_options (sel_equipment (w_widgets w)))
              w2 _ Hk)
    as (w3 & Hrun & Hs3 & Hf3 & Hq3 & Hc3 & Hw3 & Hu3).
  { rewrite Hq2. exact Hr. }
  rewrite Hrun. rewrite page_encodable_form in *.
  rewrite Hq2, Hc2 in *.
  destruct (latin1 _) eqn:Hl.
  - destruct (history_section_page w3) as (w4 & post & -> & Hu4 & He4 & Hf4 & Hs4 & Hw4 & Hq4 & Hc4).
    exists w4, post. split; [reflexivity|].
    split. { unfold history at 1. rewrite Hs4, Hs3, lookup_insert_eq. reflexivity. }
    split. { now rewrite Hf4, Hf3, Hf2. }
    split. { now rewrite Hq4, Hq3. }
    split. { now rewrite Hc4, Hc3. }
    split. { now rewrite Hw4, Hw3, Hw2. }
    split; [|exact He4].
    rewrite Hu4, Hu3, Hu2. rewrite <- !app_assoc. reflexivity.
  - exists w3, []. split; [reflexivity|].
    split. { unfold history at 1. rewrite Hs3, lookup_insert_eq. reflexivity. }
    split. { now rewrite Hf3, Hf2. }
    split; [exact Hq3|]. split; [exact Hc3|].
    split. { now rewrite Hw3, Hw2. }
    split; [|reflexivity].
    rewrite Hu3, Hu2. rewrite <- !app_assoc. reflexivity.
Qed.

Lemma main_idle env (w : world) :
  btn_generate (w_widgets w) = false ->
  exists w',
    main env w = Ret tt w' /\
    history w' = history w /\
    w_fs w' = w_fs w /\ w_requests w' = w_requests w /\
    w_clock w' = w_clock w /\ w_widgets w' = w_widgets w.
Proof.
  intros Hb.
  unfold main. unfold bind at 1, st_markdown at 1, st_emit at 1, modify at 1.
  unfold bind at 1, st_title at 1, st_emit at 1, modify at 1.
  unfold bind at 1, st_markdown at 1, st_emit at 1, modify at 1.
  set (w0 := add_ui _ (add_ui _ (add_ui _ w))).
  unfold bind at 1.
  destruct (sidebar_form_run w0) as (w1 & -> & U1).
  change (w_widgets w0) with (w_widgets w). rewrite Hb.
  unfold bind at 1.
  destruct (init_history_run w1) as (w2 & -> & Hk & Hh2 & Hu2 & Hf2 & Hw2 & Hq2 & Hc2).
  destruct U1 as (_ & Hf1 & Hs1 & Hw1 & Hq1 & Hc1).
  subst w0. cbn in Hf1, Hs1, Hw1, Hq1, Hc1.
  unfold bind at 1, ret at 1.
  destruct (history_section_run w2) as (w4 & -> & _ & Hf4 & Hs4 & Hw4 & Hq4 & Hc4).
  exists w4. split; [reflexivity|].
  split. { unfold history in *. now rewrite Hs4, Hh2, Hs1. }
  repeat split; congruence.
Qed.

Lemma startup_run env (w : world) :
  startup_ok env -> startup env w = Ret tt w.
Proof.
  intros [Hk Hm]. unfold startup. rewrite Hk.
  unfold bind at 1, ret at 1, try_except. now rewrite Hm.
Qed.

Lemma startup_no_key env (w : world) :
  py_not (getenv env "GOOGLE_API_KEY") = true ->
  startup env w =
  Stopped (add_ui (UiError "❌ Gemini API Key missing! Please add it to the .env file.") w).
Proof. intros Hk. unfold startup. rewrite Hk. reflexivity. Qed.

Lemma startup_bad_model env (w : world) (e : exn) :
  py_not (getenv env "GOOGLE_API_KEY") = false ->
  GenerativeModel env "gemini-1.5-flash" = Some e ->
  exn_is_Exception e = true ->
  startup env w =
  Stopped (add_ui (UiError ("❌ Gemini Initialization Error: " +:+ exn_str e)) w).
Proof.
  intros Hk Hm He. unfold startup. rewrite Hk.
  unfold bind at 1, ret at 1, try_except. rewrite Hm.
  unfold raise. now rewrite He.
Qed.

Lemma startup_raise env (w : world) (e : exn) :
  py_not (getenv env "GOOGLE_API_KEY") = false ->
  GenerativeModel env "gemini-1.5-flash" = Some e ->
  exn_is_Exception e = false ->
  startup env w = Raise e w.
Proof.
  intros Hk Hm He. unfold startup. rewrite Hk.
  unfold bind at 1, ret at 1, try_except. rewrite Hm.
  unfold raise. now rewrite He.
Qed.

Lemma script_run env (w : world) :
  startup_ok env -> script env w = main env w.
Proof. intros Hok. unfold script, bind. now rewrite startup_run. Qed.

(** ** Failures *)

Lemma ui_since_app (w w' : world) (evs : list ui_event) :
  w_ui w' = w_ui w ++ evs -> ui_since w w' = evs.
Proof. intros H. unfold ui_since. rewrite H. apply drop_app_length. Qed.

Lemma main_idle_page env (w : world) :
  btn_generate (w_widgets w) = false ->
  exists (w' : world) (post : list ui_event),
    main env w = Ret tt w' /\
    w_ui w' = w_ui w ++ form_events ++ post /\
    error_messages post = [] /\
    history w' = history w /\ w_fs w' = w_fs w /\
    w_requests w' = w_requests w /\ w_clock w' = w_clock w.
Proof.
  intros Hb.
  destruct (main_prefix env w) as (w2 & -> & Hk & Hu2 & Hf2 & Hw2 & Hq2 & Hc2).
  rewrite Hb. unfold bind at 1, ret at 1.
  destruct (history_section_page w2)
    as (w4 & post & -> & Hu4 & He4 & Hf4 & Hs4 & Hw4 & Hq4 & Hc4).
  exists w4, post. split; [reflexivity|].
  split. { rewrite Hu4, Hu2. now rewrite <- app_assoc. }
  split; [exact He4|].
  split. { unfold history at 1. rewrite Hs4, Hk. reflexivity. }
  repeat split; congruence.
Qed.

Lemma on_generate_raise env (fl g : string) (d : Z) (eq : string) (w : world)
    (e : exn) :
  reply env (List.length (w_requests w)) (prompt_of fl g d eq) = inl e ->
  exn_is_Exception e = false ->
  on_generate env fl g d eq w =
  Raise e (add_ui UiExit
            (add_request (prompt_of fl g d eq)
               (add_ui (UiEnter (Spinner "Generating your workout plan...")) w))).
Proof.
  intros Hr He.
  unfold on_generate, bind at 1, with_ at 1, bind at 1.
  rewrite generate_workout_run. cbv zeta.
  change (w_requests (add_ui _ w)) with (w_requests w).
  now rewrite Hr, He.
Qed.

(** A run of [main] started by a click, when the generation call raises
    what [except Exception] does not catch. *)
Lemma main_raise env (w : world) (e : exn) :
  btn_generate (w_widgets w) = true ->
  reply env (List.length (w_requests w))
        (prompt_of (selected fitness_options (sel_fitness (w_widgets w)))
                   (selected goal_options (sel_goal (w_widgets w)))
                   (num_duration (w_widgets w))
                   (selected equipment_options (sel_equipment (w_widgets w))))
  = inl e ->
  exn_is_Exception e = false ->
  exists w' : world,
    main env w = Raise e w' /\
    history w' = history w /\ w_fs w' = w_fs w /\ w_clock w' = w_clock w /\
    w_requests w' =
      w_requests w ++
      [prompt_of (selected fitness_options (sel_fitness (w_widgets w)))
                 (selected goal_options (sel_goal (w_widgets w)))
                 (num_duration (w_widgets w))
                 (selected equipment_options (sel_equipment (w_widgets w)))] /\
    w_ui w' =
      w_ui w ++ form_events
      ++ [UiEnter (Spinner "Generating your workout plan..."); UiExit].
Proof.
  intros Hb Hr He.
  destruct (main_prefix env w) as (w2 & -> & Hk & Hu2 & Hf2 & _ & Hq2 & Hc2).
  rewrite Hb. unfold bind at 1.
  rewrite (on_generate_raise env
             (selected fitness_options (sel_fitness (w_widgets w)))
             (selected goal_options (sel_goal (w_widgets w)))
             (num_duration (w_widgets w))
             (selected equipment_options (sel_equipment (w_widgets w)))
             w2 e) by (rewrite ?Hq2; assumption).
  eexists. split; [reflexivity|]. cbn.
  split. { unfold history. cbn. now rewrite Hk. }
  split; [exact Hf2|]. split; [exact Hc2|]. split; [now rewrite Hq2|].
  rewrite Hu2. now rewrite <- !app_assoc.
Qed.

(** C7, as stated, fails on its last part: when the error message holds
    a character beyond latin-1 (here a dash), the run started by the
    click ends at [pdf.output] with an encoding error; no PDF is
    produced and no download is offered. *)
Lemma error_text_beyond_latin1_no_pdf :
  exists w' : world,
    main env_dash (begin_run (apply_action ClickGenerate initial_widgets)
                             initial_world)
    = Raise UnicodeEncodeError w' /\
    w_fs w' = ∅ /\
    error_messages (w_ui w')
    = ["❌ Error generating workout: quota exceeded – retry later"%string] /\
    forall doc name mime,
      ~ In (UiDownloadButton "Download as PDF" doc name mime) (w_ui w').
Proof.
  destruct (main_click env_dash
              (begin_run (apply_action ClickGenerate initial_widgets) initial_world)
              eq_refl eq_refl)
    as (w' & post & Hm & _ & Hf & _ & _ & _ & Hu & _).
  exists w'. split; [exact Hm|]. split; [exact Hf|].
  rewrite Hu. split; [reflexivity|].
  intros doc name mime Hin. cbn in Hin.
  repeat (destruct Hin as [Hin | Hin]; [discriminate Hin|]). exact Hin.
Qed.

(** C7, amended: when the generation call fails with an [Exception],
    the string "An error occurred: " followed by [str(e)] takes the
    place of the workout plan in the run of [main] that the click
    started: it is what line 128 shows under "Your Workout Plan" and it
    is the [plan] of the entry appended to the history.  When [str(e)]
    can be encoded in latin-1 it is also the body of the PDF written
    and offered for download; when it cannot, [create_pdf] raises and no
    PDF is produced. *)
Theorem generation_error_is_the_plan env (w : world) (e : exn) :
  btn_generate (w_widgets w) = true ->
  reply env (List.length (w_requests w))
        (prompt_of (selected fitness_options (sel_fitness (w_widgets w)))
                   (selected goal_options (sel_goal (w_widgets w)))
                   (num_duration (w_widgets w))
                   (selected equipment_options (sel_equipment (w_widgets w))))
  = inl e ->
  exn_is_Exception e = true ->
  let msg := "An error occurred: " +:+ exn_str e in
  let doc := pdf_page msg
               (selected fitness_options (sel_fitness (w_widgets w)))
               (selected goal_options (sel_goal (w_widgets w)))
               (num_duration (w_widgets w))
               (selected equipment_options (sel_equipment (w_widgets w))) in
  let name := pdf_name (now env (S (w_clock w))) in
  exists (w' : world) (h : list entry) (ent : entry) (post : list ui_event),
    main env w =
      (if latin1 (exn_str e) then Ret tt w' else Raise UnicodeEncodeError w') /\
    w_ui w' =
      w_ui w ++ form_events
      ++ [ UiEnter (Spinner "Generating your workout plan...");
           UiError ("❌ Error generating workout: " +:+ exn_str e);
           UiSuccess "✅ Workout plan generated successfully!";
           UiExit;
           UiSubheader "Your Workout Plan";
           UiMarkdown msg ]
      ++ (if latin1 (exn_str e)
          then UiDownloadButton "Download as PDF" doc name "application/pdf" :: post
          else []) /\
    history w' = h ++ [ent] /\
    plan ent = msg /\
    w_fs w' = (if latin1 (exn_str e) then <[name := doc]> (w_fs w) else w_fs w) /\
    In (OpMultiCell 0 10 msg) doc /\
    last (doc_text doc) = Some msg.
Proof.
  intros Hb Hr He. cbv zeta.
  destruct (main_click env w Hb) as
    (w' & post & Hm & Hh & Hf & _ & _ & _ & Hu & _).
  { rewrite Hr. exact He. }
  rewrite Hr in *. cbn [plan_text] in *.
  rewrite (latin1_append "An error occurred: " (exn_str e)) in * by reflexivity.
  eexists w', (history w), _, post.
  split; [exact Hm|]. split; [exact Hu|].
  split; [exact Hh|]. split; [reflexivity|]. split; [exact Hf|].
  split; [unfold pdf_page; cbn; tauto | reflexivity].
Qed.

Lemma generation_error_is_the_plan_witness :
  exists (w' : world) (h : list entry) (ent : entry) (post : list ui_event),
    main env_quota (begin_run (apply_action ClickGenerate initial_widgets)
                              initial_world) = Ret tt w' /\
    w_ui w' =
      form_events
      ++ [ UiEnter (Spinner "Generating your workout plan...");
           UiError "❌ Error generating workout: quota exceeded";
           UiSuccess "✅ Workout plan generated successfully!";
           UiExit;
           UiSubheader "Your Workout Plan";
           UiMarkdown "An error occurred: quota exceeded";
           UiDownloadButton "Download as PDF"
             (pdf_page "An error occurred: quota exceeded" "Beginner"
                       "Weight Loss" 30 "Bodyweight")
             "Workout_Plan_20240102_120001.pdf" "application/pdf" ]
      ++ post /\
    history w' = h ++ [ent] /\
    plan ent = "An error occurred: quota exceeded"%string /\
    w_fs w' =
      <["Workout_Plan_20240102_120001.pdf"%string :=
          pdf_page "An error occurred: quota exceeded" "Beginner" "Weight Loss"
                   30 "Bodyweight"]> ∅ /\
    In (OpMultiCell 0 10 "An error occurred: quota exceeded")
       (pdf_page "An error occurred: quota exceeded" "Beginner" "Weight Loss"
                 30 "Bodyweight") /\
    last (doc_text (pdf_page "An error occurred: quota exceeded" "Beginner"
                             "Weight Loss" 30 "Bodyweight"))
    = Some "An error occurred: quota exceeded"%string.
Proof.
  exact (generation_error_is_the_plan env_quota
           (begin_run (apply_action ClickGenerate initial_widgets) initial_world)
           (mk_exn true "quota exceeded") eq_refl eq_refl eq_refl).
Defined.

(** C8, as stated, fails: with the credential in place and the model
    constructor raising, the run is halted before the form is served. *)
Lemma model_init_failure_also_halts : ~ only_missing_credential_halts.
Proof.
  intros H. specialize (H env_bad_model initial_world).
  vm_compute in H. discriminate H.
Qed.

(** C8, amended: the program handles exactly three failure kinds, each
    with its own [st.error] message: a missing credential and a model
    constructor that raises an [Exception], both at startup and both
    halting the run before the form is served, and a generation call
    that raises an [Exception], recovered within the run.  No other
    error class is handled: whatever else is raised (by the constructor
    or the service outside [Exception], by [pdf.output] on text beyond
    latin-1) leaves the run with no message of the program.  There is
    no retry, a submission sends exactly one request whatever follows,
    and nothing is rolled back: when [pdf.output] raises, the entry
    already appended stays.  Every run ends in one of the six ways
    below. *)
Theorem failure_kinds env (w : world) :
  let fl := selected fitness_options (sel_fitness (w_widgets w)) in
  let g := selected goal_options (sel_goal (w_widgets w)) in
  let d := num_duration (w_widgets w) in
  let eq := selected equipment_options (sel_equipment (w_widgets w)) in
  let r := reply env (List.length (w_requests w)) (prompt_of fl g d eq) in
  let w' := world_of (script env w) in
  (py_not (getenv env "GOOGLE_API_KEY") = true /\
   script env w = Stopped w' /\
   w_ui w' =
     w_ui w ++ [UiError "❌ Gemini API Key missing! Please add it to the .env file."] /\
   w_requests w' = w_requests w /\ history w' = history w)
  \/
  (py_not (getenv env "GOOGLE_API_KEY") = false /\
   exists e, GenerativeModel env "gemini-1.5-flash" = Some e /\
     exn_is_Exception e = true /\
     script env w = Stopped w' /\
     w_ui w' = w_ui w ++ [UiError ("❌ Gemini Initialization Error: " +:+ exn_str e)] /\
     w_requests w' = w_requests w /\ history w' = history w)
  \/
  (py_not (getenv env "GOOGLE_API_KEY") = false /\
   exists e, GenerativeModel env "gemini-1.5-flash" = Some e /\
     exn_is_Exception e = false /\
     script env w = Raise e w' /\ w' = w)
  \/
  (startup_ok env /\ btn_generate (w_widgets w) = false /\
   script env w = Ret tt w' /\
   error_messages (ui_since w w') = [] /\
   w_requests w' = w_requests w /\ history w' = history w)
  \/
  (startup_ok env /\ btn_generate (w_widgets w) = true /\
   exists e, r = inl e /\ exn_is_Exception e = false /\
     script env w = Raise e w' /\
     error_messages (ui_since w w') = [] /\
     w_requests w' = w_requests w ++ [prompt_of fl g d eq] /\
     history w' = history w)
  \/
  (startup_ok env /\ btn_generate (w_widgets w) = true /\
   match r with inl e => exn_is_Exception e = true | inr _ => True end /\
   script env w =
     (if latin1 (plan_text r) then Ret tt w' else Raise UnicodeEncodeError w') /\
   error_messages (ui_since w w') =
     match r with
     | inl e => ["❌ Error generating workout: " +:+ exn_str e]
     | inr _ => []
     end /\
   w_requests w' = w_requests w ++ [prompt_of fl g d eq] /\
   history w' =
     history w ++ [mk_entry (plan_text r) fl g d eq
                     (strftime (now env (w_clock w)) "%Y-%m-%d %H:%M:%S")] /\
   w_fs w' =
     (if latin1 (plan_text r)
      then <[pdf_name (now env (S (w_clock w))) :=
               pdf_page (plan_text r) fl g d eq]> (w_fs w)
      else w_fs w)).
Proof.
  cbv zeta.
  destruct (py_not (getenv env "GOOGLE_API_KEY")) eqn:Hk.
  { left. unfold script, bind. rewrite (startup_no_key env w Hk).
    repeat split; reflexivity. }
  right.
  destruct (GenerativeModel env "gemini-1.5-flash") as [e|] eqn:Hm.
  { destruct (exn_is_Exception e) eqn:He.
    - left. split; [reflexivity|]. exists e. unfold script, bind.
      rewrite (startup_bad_model env w e Hk Hm He).
      repeat split; try reflexivity; assumption.
    - right. left. split; [reflexivity|]. exists e. unfold script, bind.
      rewrite (startup_raise env w e Hk Hm He).
      repeat split; try reflexivity; assumption. }
  right. right.
  assert (Hok : startup_ok env) by now split.
  rewrite (script_run env w Hok).
  destruct (btn_generate (w_widgets w)) eqn:Hb.
  2:{ left. split; [exact Hok|]. split; [reflexivity|].
      destruct (main_idle_page env w Hb)
        as (w' & post & -> & Hu & He & Hh & _ & Hq & _).
      cbn [world_of]. split; [reflexivity|].
      rewrite (ui_since_app _ _ _ Hu), error_messages_app, He.
      repeat split; assumption. }
  right.
  destruct (reply env (List.length (w_requests w))
              (prompt_of (selected fitness_options (sel_fitness (w_widgets w)))
                         (selected goal_options (sel_goal (w_widgets w)))
                         (num_duration (w_widgets w))
                         (selected equipment_options (sel_equipment (w_widgets w)))))
    as [e|t] eqn:Hr.
  - destruct (exn_is_Exception e) eqn:He.
    + right. split; [exact Hok|]. split; [reflexivity|]. split; [reflexivity|].
      destruct (main_click env w Hb) as
        (w' & post & Hrun & Hh & Hf & Hq & _ & _ & Hu & Hp);
        [now rewrite Hr|].
      rewrite Hr in *. cbn [plan_text] in *.
      assert (Hw : world_of (main env w) = w').
      { rewrite Hrun. now destruct (latin1 _). }
      rewrite Hw. split; [exact Hrun|].
      split.
      { rewrite (ui_since_app _ _ _ Hu), !error_messages_app.
        destruct (latin1 _); cbn; [rewrite Hp|]; reflexivity. }
      repeat split; assumption.
    + left. split; [exact Hok|]. split; [reflexivity|]. exists e.
      split; [reflexivity|]. split; [exact He|].
      destruct (main_raise env w e Hb Hr He) as (w' & -> & Hh & _ & _ & Hq & Hu).
      cbn [world_of]. split; [reflexivity|].
      rewrite (ui_since_app _ _ _ Hu), error_messages_app.
      repeat split; assumption.
  - right. split; [exact Hok|]. split; [reflexivity|]. split; [exact I|].
    destruct (main_click env w Hb) as
      (w' & post & Hrun & Hh & Hf & Hq & _ & _ & Hu & Hp);
      [now rewrite Hr|].
    rewrite Hr in *. cbn [plan_text] in *.
    assert (Hw : world_of (main env w) = w').
    { rewrite Hrun. now destruct (latin1 _). }
    rewrite Hw. split; [exact Hrun|].
    split.
    { rewrite (ui_since_app _ _ _ Hu), !error_messages_app.
      destruct (latin1 _); cbn; [rewrite Hp|]; reflexivity. }
    repeat split; assumption.
Qed.

(** ** Decimal rendering *)

Lemma int_of_str_of_int (z : Z) : int_of_str (str_of_int z) = Some z.
Proof.
  unfold int_of_str, str_of_int. rewrite NilZero.isi.
  - now rewrite DecimalZ.of_to.
  - destruct z; cbn; try discriminate.
    intros [= H]. now apply Unsigned.to_uint_nonnil in H.
  - destruct z; cbn; try discriminate.
    intros [= H]. now apply Unsigned.to_uint_nonnil in H.
Qed.

(** ** Rules for invariants of the script monad *)

Section Triples.

Variable I : world -> Prop.
Hypothesis I_add_ui : forall ev w, I w -> I (add_ui ev w).

Lemma triple_ret {A} (a : A) (Q : A -> Prop) : Q a -> triple I (ret a) Q.
Proof. intros Hq w Hw. now split. Qed.

Lemma triple_bind {A B} (m : M A) (k : A -> M B) (Q : A -> Prop) (R : B -> Prop) :
  triple I m Q -> (forall a, Q a -> triple I (k a) R) -> triple I (bind m k) R.
Proof.
  intros Hm Hk w Hw. unfold bind. specialize (Hm w Hw).
  destruct (m w) as [a w'|e w'|w']; [|exact Hm|exact Hm].
  destruct Hm as [Hw' Hq]. exact (Hk a Hq w' Hw').
Qed.

Lemma triple_conseq {A} (m : M A) (Q Q' : A -> Prop) :
  triple I m Q -> (forall a, Q a -> Q' a) -> triple I m Q'.
Proof.
  intros Hm Hq w Hw. specialize (Hm w Hw).
  destruct (m w); [destruct Hm; split; auto | exact Hm | exact Hm].
Qed.

Lemma triple_emit (ev : ui_event) : triple I (st_emit ev) (fun _ => True).
Proof. intros w Hw. cbn. split; [now apply I_add_ui | exact Logic.I]. Qed.

Lemma triple_stop {A} (Q : A -> Prop) : triple I st_stop Q.
Proof. intros w Hw. exact Hw. Qed.

Lemma triple_lift_exn {A} (r : exn + A) : triple I (lift_exn r) (fun a => r = inr a).
Proof. intros w Hw. destruct r; cbn; [exact Hw | now split]. Qed.

Lemma triple_get_world : triple I get_world I.
Proof. intros w Hw. now split. Qed.

Lemma triple_with {A} (c : container) (body : M A) (Q : A -> Prop) :
  triple I body Q -> triple I (with_ c body) Q.
Proof.
  intros Hb w Hw. unfold with_.
  specialize (Hb (add_ui (UiEnter c) w) (I_add_ui _ _ Hw)).
  destruct (body _); [destruct Hb; split; auto | auto | auto].
Qed.

Lemma triple_try {A} (body : M A) (handler : exn -> M A) (Q : A -> Prop) :
  triple I body Q -> (forall e, triple I (handler e) Q) ->
  triple I (try_except body handler) Q.
Proof.
  intros Hb Hh w Hw. unfold try_except. specialize (Hb w Hw).
  destruct (body w) as [a w'|e w'|w']; [exact Hb | | exact Hb].
  destruct (exn_is_Exception e); [exact (Hh e w' Hb) | exact Hb].
Qed.

End Triples.

(** ** The session keeps every duration within the bounds *)

Lemma inv_add_ui ev w : session_inv w -> session_inv (add_ui ev w).
Proof. intros [H1 H2 H3 H4]. now constructor. Qed.

Lemma inv_tick w : session_inv w -> session_inv (tick w).
Proof. intros [H1 H2 H3 H4]. now constructor. Qed.

Create HintDb triples.
#[local] Hint Resolve inv_add_ui inv_tick : triples.

(** Run the next statement with a known rule, or write to the page. *)
Ltac next lem := eapply triple_bind; [ eapply lem; eauto with triples | intros ? ? ].
Ltac emit := eapply triple_bind; [ apply triple_emit; apply inv_add_ui | intros _ _ ].

Lemma emit_inv (ev : ui_event) : triple session_inv (st_emit ev) (fun _ => True).
Proof. apply triple_emit, inv_add_ui. Qed.

Lemma st_number_input_inv (label : string) (a b c d : Z) :
  triple session_inv (st_number_input label a b c d) duration_ok.
Proof.
  unfold st_number_input. emit.
  eapply triple_bind; [apply triple_get_world|]. intros w Hw.
  apply triple_ret. apply Hw.
Qed.

Lemma st_selectbox_inv label options sel :
  triple session_inv (st_selectbox label options sel) (fun _ => True).
Proof.
  unfold st_selectbox. emit.
  eapply triple_bind; [apply triple_get_world|]. intros w Hw. now apply triple_ret.
Qed.

Lemma st_button_inv label :
  triple session_inv (st_button label) (fun _ => True).
Proof.
  unfold st_button. emit.
  eapply triple_bind; [apply triple_get_world|]. intros w Hw. now apply triple_ret.
Qed.

Lemma sidebar_form_inv :
  triple session_inv sidebar_form (fun form => duration_ok (form.1.1.2)).
Proof.
  unfold sidebar_form. apply triple_with; [apply inv_add_ui|].
  unfold st_header. emit.
  next st_selectbox_inv. next st_selectbox_inv. next st_number_input_inv.
  next st_selectbox_inv. next st_button_inv.
  now apply triple_ret.
Qed.

Lemma init_history_inv : triple session_inv init_history (fun _ => True).
Proof.
  intros w Hw. unfold init_history.
  destruct (w_session w !! history_key) eqn:Hk; (split; [|exact I]); [exact Hw|].
  destruct Hw as [H1 H2 H3 H4]. constructor; auto. cbn.
  apply map_Forall_insert_2; [constructor | exact H2].
Qed.

Lemma datetime_now_inv env : triple session_inv (datetime_now env) (fun _ => True).
Proof. intros w Hw. cbn. split; [now apply inv_tick | exact I]. Qed.

Lemma history_append_inv (e : entry) :
  duration_ok (duration e) -> triple session_inv (history_append e) (fun _ => True).
Proof.
  intros He w Hw. unfold history_append.
  destruct (w_session w !! history_key) as [h|] eqn:Hk; [|exact Hw].
  split; [|exact I]. destruct Hw as [H1 H2 H3 H4]. constructor; auto. cbn.
  apply map_Forall_insert_2; [|exact H2].
  apply Forall_app. split; [exact (H2 _ _ Hk)|].
  constructor; [exact He | constructor].
Qed.

Lemma model_generate_content_inv env (fl g : string) (d : Z) (eq : string) :
  duration_ok d ->
  triple session_inv (model_generate_content env (prompt_of fl g d eq)) (fun _ => True).
Proof.
  intros Hd w Hw. unfold model_generate_content.
  assert (session_inv (add_request (prompt_of fl g d eq) w)).
  { destruct Hw as [H1 H2 H3 H4]. constructor; auto. cbn.
    apply Forall_app. split; [exact H3|].
    constructor; [now exists fl, g, d, eq | constructor]. }
  destruct (generate_content env _ _); [assumption | now split].
Qed.

Lemma generate_workout_inv env (fl g : string) (d : Z) (eq : string) :
  duration_ok d ->
  triple session_inv (generate_workout env fl g d eq) (fun _ => True).
Proof.
  intros Hd. unfold generate_workout.
  eapply triple_bind; [apply triple_lift_exn|]. intros p Hp.
  rewrite workout_prompt_format_eq in Hp. injection Hp as <-.
  apply triple_try.
  - next model_generate_content_inv. unfold response_text.
    eapply triple_conseq; [apply triple_lift_exn | auto].
  - intros e. unfold st_error. emit. now apply triple_ret.
Qed.

Lemma pdf_output_inv (wp fl g : string) (d : Z) (eq : string) (name : string) :
  duration_ok d ->
  triple session_inv (pdf_output (pdf_page wp fl g d eq) name) (fun _ => True).
Proof.
  intros Hd w Hw. unfold pdf_output.
  destruct (page_encodable _); [|exact Hw].
  split; [|exact I].
  destruct Hw as [H1 H2 H3 H4]. constructor; auto. cbn.
  apply map_Forall_insert_2; [|exact H4]. now exists wp, fl, g, d, eq.
Qed.

Lemma create_pdf_inv env (wp fl g : string) (d : Z) (eq : string) :
  duration_ok d ->
  triple session_inv (create_pdf env wp fl g d eq) (fun _ => True).
Proof.
  intros Hd. unfold create_pdf. next datetime_now_inv.
  next pdf_output_inv. now apply triple_ret.
Qed.

Lemma open_rb_inv name : triple session_inv (open_rb name) (fun _ => True).
Proof. intros w Hw. unfold open_rb. destruct (w_fs w !! name); [now split | exact Hw]. Qed.

Lemma on_generate_inv env (fl g : string) (d : Z) (eq : string) :
  duration_ok d ->
  triple session_inv (on_generate env fl g d eq) (fun _ => True).
Proof.
  intros Hd. unfold on_generate.
  eapply triple_bind.
  - apply triple_with; [apply inv_add_ui|].
    next generate_workout_inv. next datetime_now_inv.
    next history_append_inv. unfold st_success. emit.
    apply triple_ret. exact I.
  - intros wp _. unfold st_subheader, st_markdown. emit. emit.
    next create_pdf_inv. next open_rb_inv. apply emit_inv.
Qed.

Lemma show_history_inv (h : list entry) :
  forall i, triple session_inv (show_history i h) (fun _ => True).
Proof.
  induction h as [|e h IH]; intros i; cbn [show_history].
  - now apply triple_ret.
  - eapply triple_bind; [|intros _ _; apply IH].
    unfold show_entry. apply triple_with; [apply inv_add_ui|].
    unfold st_write, st_markdown. emit. emit. emit. emit. apply emit_inv.
Qed.

Lemma history_section_inv : triple session_inv history_section (fun _ => True).
Proof.
  unfold history_section.
  eapply triple_bind; [apply triple_get_world|]. intros w Hw.
  destruct (w_session w !! history_key) as [[|e h]|]; try now apply triple_ret.
  unfold st_subheader. emit. apply show_history_inv.
Qed.

Lemma main_inv env : triple session_inv (main env) (fun _ => True).
Proof.
  unfold main, st_markdown, st_title. emit. emit. emit.
  eapply triple_bind; [apply sidebar_form_inv|].
  intros [[[[fl g] d] eq] b] Hd. cbn in Hd.
  next init_history_inv.
  eapply triple_bind; [|intros _ _; apply history_section_inv].
  destruct b; [now apply on_generate_inv | now apply triple_ret].
Qed.

Lemma startup_inv env : triple session_inv (startup env) (fun _ => True).
Proof.
  unfold startup.
  eapply triple_bind.
  - destruct (py_not _).
    + unfold st_error. emit. apply triple_stop.
    + apply (triple_ret session_inv tt (fun _ => True)). exact I.
  - intros _ _. apply triple_try.
    + destruct (GenerativeModel env _); [|now apply triple_ret].
      intros w Hw. exact Hw.
    + intros e. unfold st_error. emit. apply triple_stop.
Qed.

Lemma script_inv env : triple session_inv (script env) (fun _ => True).
Proof.
  unfold script. eapply triple_bind; [apply startup_inv|]. intros _ _. apply main_inv.
Qed.

Lemma triple_world_of {A} (m : M A) (Q : A -> Prop) (w : world) :
  triple session_inv m Q -> session_inv w -> session_inv (world_of (m w)).
Proof.
  intros Hm Hw. specialize (Hm w Hw). destruct (m w); cbn; tauto.
Qed.

Lemma commit_ok (z old : Z) : duration_ok old -> duration_ok (commit z old).
Proof.
  intros Ho. unfold commit, in_bounds, duration_ok in *.
  destruct (duration_min <=? z) eqn:E1; [|exact Ho].
  destruct (z <=? duration_max) eqn:E2; [|exact Ho]. cbn. lia.
Qed.

Lemma begin_run_inv (a : action) (w : world) :
  session_inv w -> session_inv (begin_run (apply_action a (w_widgets w)) w).
Proof.
  intros [H1 H2 H3 H4]. constructor; auto. cbn.
  destruct a; cbn; auto using commit_ok.
Qed.

Lemma interact_inv env (w : world) (a : action) :
  session_inv w -> session_inv (interact env w a).
Proof.
  intros Hw. unfold interact.
  eapply triple_world_of; [apply script_inv | now apply begin_run_inv].
Qed.

Lemma initial_world_inv : session_inv initial_world.
Proof.
  constructor; cbn.
  - unfold duration_ok, duration_min, duration_max, duration_default. lia.
  - apply map_Forall_empty.
  - constructor.
  - apply map_Forall_empty.
Qed.

Lemma fold_interact_inv env (acts : list action) :
  forall w, session_inv w -> session_inv (fold_left (interact env) acts w).
Proof.
  induction acts as [|a acts IH]; intros w Hw; cbn; [exact Hw|].
  apply IH. now apply interact_inv.
Qed.

Lemma run_session_inv env (acts : list action) : session_inv (run_session env acts).
Proof.
  unfold run_session. apply fold_interact_inv.
  eapply triple_world_of; [apply script_inv | apply initial_world_inv].
Qed.

(** C5: in every state a session can reach, the number input holds an
    integer between 10 and 120; so does every history entry, and the
    duration written into every prompt sent and every PDF produced is
    such an integer in decimal, as is the line a history entry shows;
    the decimal text reads back as the same integer. *)
Theorem duration_always_within_bounds env (acts : list action) :
  let w := run_session env acts in
  10 <= num_duration (w_widgets w) <= 120 /\
  Forall (fun e => 10 <= duration e <= 120) (history w) /\
  Forall (fun p => exists (fl g : string) (d : Z) (eq : string),
            10 <= d <= 120 /\
            p = "Create a personalized workout plan for a " +:+ fl
                +:+ " individual whose goal is " +:+ g
                +:+ ". The workout should last " +:+ str_of_int d
                +:+ " minutes and use " +:+ eq
                +:+ " equipment. Provide step-by-step exercises with sets, reps, and rest intervals.")
         (w_requests w) /\
  (forall (name : string) (doc : pdf_doc),
     w_fs w !! name = Some doc ->
     exists d, 10 <= d <= 120 /\
       In (OpCell 200 10 ("Duration: " +:+ str_of_int d +:+ " minutes") true "") doc) /\
  (forall (i : nat) (e : entry) (w0 : world),
     In (UiWrite ("**Duration:** " +:+ str_of_int (duration e) +:+ " minutes"))
        (w_ui (world_of (show_entry i e w0)))) /\
  (forall d : Z, int_of_str (str_of_int d) = Some d).
Proof.
  cbv zeta. destruct (run_session_inv env acts) as [H1 H2 H3 H4].
  split; [exact H1|]. split.
  { unfold history. destruct (w_session _ !! history_key) as [h|] eqn:Hk; cbn.
    - exact (H2 _ _ Hk).
    - constructor. }
  split; [exact H3|]. split.
  { intros name doc Hdoc. destruct (H4 _ _ Hdoc) as (wp & fl & g & d & eq & Hd & ->).
    exists d. split; [exact Hd|]. cbn. tauto. }
  split.
  { intros i e w0. cbn. rewrite !in_app_iff. cbn. tauto. }
  exact int_of_str_of_int.
Qed.

(** ** The history list *)

Lemma interact_click env (w : world) :
  startup_ok env -> raises_only_Exception env ->
  history (interact env w ClickGenerate) = history w ++ [submitted_entry env w].
Proof.
  intros Hok Hsvc. unfold interact. rewrite (script_run _ _ Hok).
  destruct (main_click env (begin_run (apply_action ClickGenerate (w_widgets w)) w)
              eq_refl) as (w' & post & Hrun & Hh & _).
  { destruct (reply env _ _) as [e|s] eqn:Hr; [|exact I]. exact (Hsvc _ _ _ Hr). }
  rewrite Hrun. destruct (latin1 _); exact Hh.
Qed.

Lemma interact_other env (w : world) (a : action) :
  startup_ok env -> is_click a = false ->
  history (interact env w a) = history w.
Proof.
  intros Hok Ha. unfold interact. rewrite (script_run _ _ Hok).
  destruct (main_idle env (begin_run (apply_action a (w_widgets w)) w))
    as (w' & -> & Hh & _).
  { now destruct a. }
  exact Hh.
Qed.

Lemma fold_interact_length env (acts : list action) :
  startup_ok env -> raises_only_Exception env ->
  forall w,
    List.length (history (fold_left (interact env) acts w))
    = (List.length (history w) + clicks acts)%nat.
Proof.
  intros Hok Hsvc. induction acts as [|a acts IH]; intros w.
  - cbn. lia.
  - cbn [fold_left]. rewrite IH. unfold clicks. cbn [List.filter].
    destruct (is_click a) eqn:Ha.
    + destruct a; try discriminate Ha.
      rewrite interact_click by assumption.
      rewrite length_app. cbn. lia.
    + rewrite interact_other by assumption. lia.
Qed.

Lemma fold_interact_other env (acts : list action) :
  startup_ok env -> forallb (fun a => negb (is_click a)) acts = true ->
  forall w, history (fold_left (interact env) acts w) = history w.
Proof.
  intros Hok. induction acts as [|a acts IH]; intros Hacts w; [reflexivity|].
  cbn in Hacts. apply andb_prop in Hacts as [Ha Hacts].
  cbn [fold_left]. rewrite IH by assumption.
  apply interact_other; [assumption | now apply negb_true_iff].
Qed.

(** C6: with the form served, a click on the button appends one entry
    to the history and changes none of the entries already there; any
    other action leaves the list as it is, so the list is as long as
    the number of submissions; after two submissions, whatever the user
    did to the form in between, the list ends with the entry of the
    first followed by the entry of the second, each with the inputs,
    the time stamp and the text of its own run. *)
Theorem submission_appends_one_entry env :
  startup_ok env -> raises_only_Exception env ->
  (forall w : world,
     history (interact env w ClickGenerate) = history w ++ [submitted_entry env w]) /\
  (forall (w : world) (a : action),
     is_click a = false -> history (interact env w a) = history w) /\
  (forall acts : list action,
     List.length (history (run_session env acts)) = clicks acts) /\
  (forall (w : world) (between : list action),
     forallb (fun a => negb (is_click a)) between = true ->
     let w1 := fold_left (interact env) between (interact env w ClickGenerate) in
     history (interact env w1 ClickGenerate)
     = history w ++ [submitted_entry env w; submitted_entry env w1]).
Proof.
  intros Hok Hsvc. split; [|split; [|split]].
  - intros w. now apply interact_click.
  - intros w a Ha. now apply interact_other.
  - intros acts. unfold run_session. rewrite fold_interact_length by assumption.
    rewrite (script_run _ _ Hok).
    destruct (main_idle env initial_world eq_refl) as (w' & -> & Hh & _).
    cbn [world_of]. now rewrite Hh.
  - intros w between Hb. cbv zeta.
    rewrite interact_click by assumption.
    rewrite fold_interact_other by assumption.
    rewrite interact_click by assumption.
    now rewrite <- app_assoc.
Qed.

(** ** The statements at sample collaborators *)

Lemma env_squats_ok : startup_ok env_squats.
Proof. split; reflexivity. Qed.

Lemma env_squats_raises_only_Exception : raises_only_Exception env_squats.
Proof. intros n prompt e H. discriminate H. Qed.

Lemma ticking_clock_valid (n : nat) : valid_datetime (ticking_clock n).
Proof.
  unfold valid_datetime, ticking_clock, MINYEAR, MAXYEAR. cbn.
  change (days_in_month 2024 1) with 31.
  pose proof (Z.mod_pos_bound (Z.of_nat n) 60). lia.
Qed.

Lemma submission_appends_one_entry_witness :
  startup_ok env_squats /\ raises_only_Exception env_squats /\
  let w0 := world_of (script env_squats initial_world) in
  let w1 := fold_left (interact env_squats) [SelectFitness 2; TypeDuration 45]
                      (interact env_squats w0 ClickGenerate) in
  history (interact env_squats w1 ClickGenerate)
  = [ mk_entry "Do 10 squats." "Beginner" "Weight Loss" 30 "Bodyweight"
               "2024-01-02 12:00:00";
      mk_entry "Do 10 squats." "Advanced" "Weight Loss" 45 "Bodyweight"
               "2024-01-02 12:00:02" ].
Proof.
  split; [exact env_squats_ok|]. split; [exact env_squats_raises_only_Exception|].
  destruct (submission_appends_one_entry env_squats env_squats_ok
              env_squats_raises_only_Exception) as (_ & _ & _ & H).
  specialize (H (world_of (script env_squats initial_world))
                [SelectFitness 2; TypeDuration 45] eq_refl).
  cbv zeta in H. cbv zeta. rewrite H. vm_compute. reflexivity.
Defined.

Lemma pdf_filename_stamp_witness :
  valid_datetime (now env_squats 0) /\ valid_datetime (now env_squats 1) /\
  exists (f1 f2 : string) (w1' w2' : world),
    create_pdf env_squats "Do 10 squats." "Beginner" "Weight Loss" 30
               "Bodyweight" initial_world = Ret f1 w1' /\
    create_pdf env_squats "Do 10 squats." "Beginner" "Weight Loss" 30
               "Bodyweight" (tick initial_world) = Ret f2 w2' /\
    f1 = "Workout_Plan_20240102_120000.pdf"%string /\
    f2 = "Workout_Plan_20240102_120001.pdf"%string /\
    f1 <> f2.
Proof.
  split; [apply ticking_clock_valid|]. split; [apply ticking_clock_valid|].
  destruct (pdf_filename_stamp env_squats
              "Do 10 squats." "Beginner" "Weight Loss" 30 "Bodyweight" initial_world
              "Do 10 squats." "Beginner" "Weight Loss" 30 "Bodyweight" (tick initial_world)
              (ticking_clock_valid 0) (ticking_clock_valid 1) eq_refl eq_refl)
    as (f1 & f2 & date1 & time1 & date2 & time2 & w1' & w2' & H1 & H2 & _ & _
        & _ & _ & _ & _ & _ & _ & _ & _ & Hne).
  exists f1, f2, w1', w2'. split; [exact H1|]. split; [exact H2|].
  rewrite create_pdf_run in H1, H2.
  injection H1 as <- _. injection H2 as <- _.
  split; [vm_compute; reflexivity|]. split; [vm_compute; reflexivity|].
  apply Hne. vm_compute. discriminate.
Defined.

(** * Further properties *)

(** ** What a submission puts on the page *)

(** X3: after a generation failure the page still announces success.
    In the run of [main] started by the click, whether or not the PDF
    can be written afterwards, the page shows after the form, in this
    order and with nothing in between: the spinner, the error message
    of [generate_workout], the banner "Workout plan generated
    successfully!", the end of the spinner, the subheader
    "Your Workout Plan" and the error text as the plan. *)
Theorem success_banner_follows_error env (w : world) (e : exn) :
  btn_generate (w_widgets w) = true ->
  reply env (List.length (w_requests w))
        (prompt_of (selected fitness_options (sel_fitness (w_widgets w)))
                   (selected goal_options (sel_goal (w_widgets w)))
                   (num_duration (w_widgets w))
                   (selected equipment_options (sel_equipment (w_widgets w))))
  = inl e ->
  exn_is_Exception e = true ->
  exists rest : list ui_event,
    w_ui (world_of (main env w)) =
      w_ui w ++ form_events
      ++ [ UiEnter (Spinner "Generating your workout plan...");
           UiError ("❌ Error generating workout: " +:+ exn_str e);
           UiSuccess "✅ Workout plan generated successfully!";
           UiExit;
           UiSubheader "Your Workout Plan";
           UiMarkdown ("An error occurred: " +:+ exn_str e) ]
      ++ rest.
Proof.
  intros Hb Hr He.
  destruct (main_click env w Hb) as (w' & post & Hrun & _ & _ & _ & _ & _ & Hu & _).
  { rewrite Hr. exact He. }
  rewrite Hr in *. cbn [plan_text] in *.
  assert (Hw : world_of (main env w) = w').
  { rewrite Hrun. now destruct (latin1 _). }
  rewrite Hw. eexists. exact Hu.
Qed.

Lemma success_banner_follows_error_witness :
  exists rest : list ui_event,
    w_ui (world_of (main env_dash
                      (begin_run (apply_action ClickGenerate initial_widgets)
                                 initial_world))) =
      form_events
      ++ [ UiEnter (Spinner "Generating your workout plan...");
           UiError "❌ Error generating workout: quota exceeded – retry later";
           UiSuccess "✅ Workout plan generated successfully!";
           UiExit;
           UiSubheader "Your Workout Plan";
           UiMarkdown "An error occurred: quota exceeded – retry later" ]
      ++ rest.
Proof.
  exact (success_banner_follows_error env_dash
           (begin_run (apply_action ClickGenerate initial_widgets) initial_world)
           (mk_exn true "quota exceeded – retry later") eq_refl eq_refl eq_refl).
Defined.

(** ** A raise that [except Exception] does not catch *)

(** X2: an object raised by the generation call that is not an instance
    of [Exception] is not caught: it leaves [main].  The request has been
    sent, but no entry is appended, no file is written, the clock is not
    read, and nothing after the spinner block is shown: no success
    banner, no plan, no download button, no history section. *)
Theorem uncaught_raise_leaves_main env (w : world) (e : exn) :
  btn_generate (w_widgets w) = true ->
  reply env (List.length (w_requests w))
        (prompt_of (selected fitness_options (sel_fitness (w_widgets w)))
                   (selected goal_options (sel_goal (w_widgets w)))
                   (num_duration (w_widgets w))
                   (selected equipment_options (sel_equipment (w_widgets w))))
  = inl e ->
  exn_is_Exception e = false ->
  exists (w' : world) (before : list ui_event),
    main env w = Raise e w' /\
    history w' = history w /\
    w_fs w' = w_fs w /\
    w_clock w' = w_clock w /\
    w_requests w' =
      w_requests w ++
      [prompt_of (selected fitness_options (sel_fitness (w_widgets w)))
                 (selected goal_options (sel_goal (w_widgets w)))
                 (num_duration (w_widgets w))
                 (selected equipment_options (sel_equipment (w_widgets w)))] /\
    w_ui w' =
      w_ui w ++ before
      ++ [UiEnter (Spinner "Generating your workout plan..."); UiExit].
Proof.
  intros Hb Hr He.
  destruct (main_raise env w e Hb Hr He) as (w' & Hrun & Hh & Hf & Hc & Hq & Hu).
  exists w', form_events. repeat split; assumption.
Qed.

Lemma uncaught_raise_leaves_main_witness :
  exists (w' : world) (before : list ui_event),
    main env_interrupt
         (begin_run (apply_action ClickGenerate initial_widgets) initial_world)
    = Raise (mk_exn false "KeyboardInterrupt") w' /\
    history w' = [] /\
    w_fs w' = ∅ /\
    w_clock w' = 0%nat /\
    w_requests w' =
      [prompt_of "Beginner" "Weight Loss" 30 "Bodyweight"] /\
    w_ui w' =
      before ++ [UiEnter (Spinner "Generating your workout plan..."); UiExit].
Proof.
  exact (uncaught_raise_leaves_main env_interrupt
           (begin_run (apply_action ClickGenerate initial_widgets) initial_world)
           (mk_exn false "KeyboardInterrupt") eq_refl eq_refl eq_refl).
Defined.

(** ** One user action, field by field *)

Lemma interact_click_fields env (w : world) :
  startup_ok env -> raises_only_Exception env ->
  let w' := interact env w ClickGenerate in
  let e := submitted_entry env w in
  history w' = history w ++ [e] /\
  w_fs w' =
    (if latin1 (plan e)
     then <[pdf_name (now env (S (w_clock w))) := pdf_of_entry e]> (w_fs w)
     else w_fs w) /\
  w_requests w' = w_requests w ++ [prompt_of_entry e] /\
  w_clock w' = S (S (w_clock w)).
Proof.
  intros Hok Hsvc. cbv zeta. unfold interact. rewrite (script_run _ _ Hok).
  destruct (main_click env (begin_run (apply_action ClickGenerate (w_widgets w)) w)
              eq_refl) as (w' & post & Hrun & Hh & Hf & Hq & Hc & _).
  { destruct (reply env _ _) as [e|s] eqn:Hr; [|exact I]. exact (Hsvc _ _ _ Hr). }
  assert (Hw : world_of (main env (begin_run (apply_action ClickGenerate (w_widgets w)) w)) = w').
  { rewrite Hrun. now destruct (latin1 _). }
  rewrite Hw. repeat split; assumption.
Qed.

Lemma interact_other_fields env (w : world) (a : action) :
  startup_ok env -> is_click a = false ->
  let w' := interact env w a in
  history w' = history w /\ w_fs w' = w_fs w /\
  w_requests w' = w_requests w /\ w_clock w' = w_clock w /\
  w_widgets w' = apply_action a (w_widgets w).
Proof.
  intros Hok Ha. cbv zeta. unfold interact. rewrite (script_run _ _ Hok).
  destruct (main_idle env (begin_run (apply_action a (w_widgets w)) w))
    as (w' & -> & Hh & Hf & Hq & Hc & Hw).
  { now destruct a. }
  cbn [world_of]. repeat split; assumption.
Qed.

(** X7: with the form served, a rerun that no click started (a changed
    selection, a new number) only redraws the page: it sends no
    request, writes no file, does not read the clock and leaves the
    history as it is; the widgets hold what the user set. *)
Theorem rerun_without_click_is_idle env (w : world) (a : action) :
  startup_ok env ->
  is_click a = false ->
  w_requests (interact env w a) = w_requests w /\
  w_fs (interact env w a) = w_fs w /\
  w_clock (interact env w a) = w_clock w /\
  history (interact env w a) = history w /\
  w_widgets (interact env w a) = apply_action a (w_widgets w).
Proof.
  intros Hok Ha.
  destruct (interact_other_fields env w a Hok Ha) as (Hh & Hf & Hq & Hc & Hw).
  repeat split; assumption.
Qed.

Lemma rerun_without_click_is_idle_witness :
  w_requests (interact env_squats initial_world (TypeDuration 45)) = [] /\
  w_fs (interact env_squats initial_world (TypeDuration 45)) = ∅ /\
  w_clock (interact env_squats initial_world (TypeDuration 45)) = 0%nat /\
  history (interact env_squats initial_world (TypeDuration 45)) = [] /\
  w_widgets (interact env_squats initial_world (TypeDuration 45))
  = mk_widgets 0 0 45 0 false.
Proof.
  exact (rerun_without_click_is_idle env_squats initial_world (TypeDuration 45)
           env_squats_ok eq_refl).
Defined.

(** ** Whole sessions *)

Lemma session_start env :
  startup_ok env ->
  let w := world_of (script env initial_world) in
  history w = [] /\ w_fs w = ∅ /\ w_requests w = [] /\ w_clock w = 0%nat.
Proof.
  intros Hok. cbv zeta. rewrite (script_run _ _ Hok).
  destruct (main_idle env initial_world eq_refl) as (w' & -> & Hh & Hf & Hq & Hc & _).
  cbn [world_of]. repeat split; assumption.
Qed.

(** The state kept along a session: the requests are the prompts of the
    history entries, each plan answers the request of its index, the
    clock has been read twice per entry, and every file is the document
    of an entry. *)
Lemma session_log_inv env (acts : list action) :
  startup_ok env -> raises_only_Exception env ->
  forall w,
    (w_requests w = map prompt_of_entry (history w) /\
     (forall i e, history w !! i = Some e ->
        plan e = plan_text (reply env i (prompt_of_entry e))) /\
     w_clock w = (2 * List.length (history w))%nat /\
     map_Forall (fun _ doc => exists e, In e (history w) /\ doc = pdf_of_entry e)
                (w_fs w)) ->
    let w' := fold_left (interact env) acts w in
    w_requests w' = map prompt_of_entry (history w') /\
    (forall i e, history w' !! i = Some e ->
       plan e = plan_text (reply env i (prompt_of_entry e))) /\
    w_clock w' = (2 * List.length (history w'))%nat /\
    map_Forall (fun _ doc => exists e, In e (history w') /\ doc = pdf_of_entry e)
               (w_fs w').
Proof.
  intros Hok Hsvc. induction acts as [|a acts IH]; intros w Hw; [exact Hw|].
  cbn [fold_left]. apply IH. destruct Hw as (Hq & Hp & Hc & Hf).
  destruct (is_click a) eqn:Ha.
  - destruct a; try discriminate Ha.
    destruct (interact_click_fields env w Hok Hsvc) as (Hh' & Hf' & Hq' & Hc').
    rewrite Hh', Hf', Hq', Hc'. split; [|split; [|split]].
    + now rewrite map_app, Hq.
    + intros i e Hi. apply lookup_app_Some in Hi as [Hi | [Hlen Hi]].
      * now apply Hp.
      * apply list_lookup_singleton_Some in Hi as [Hi0 <-].
        assert (i = List.length (history w)) as -> by lia.
        unfold submitted_entry, prompt_of_entry. cbn.
        rewrite Hq, length_map. reflexivity.
    + rewrite length_app. cbn. lia.
    + assert (Hold : map_Forall
                (fun _ doc => exists e,
                   In e (history w ++ [submitted_entry env w]) /\ doc = pdf_of_entry e)
                (w_fs w)).
      { eapply map_Forall_impl; [exact Hf|]. intros name doc (e & He & ->).
        exists e. split; [|reflexivity]. apply in_or_app. now left. }
      destruct (latin1 _); [|exact Hold].
      apply map_Forall_insert_2; [|exact Hold].
      exists (submitted_entry env w). split; [|reflexivity].
      apply in_or_app. right. now left.
  - destruct (interact_other_fields env w a Hok Ha) as (Hh' & Hf' & Hq' & Hc' & _).
    rewrite Hh', Hf', Hq', Hc'. repeat split; assumption.
Qed.

Lemma run_session_log env (acts : list action) :
  startup_ok env -> raises_only_Exception env ->
  let w := run_session env acts in
  w_requests w = map prompt_of_entry (history w) /\
  (forall i e, history w !! i = Some e ->
     plan e = plan_text (reply env i (prompt_of_entry e))) /\
  w_clock w = (2 * List.length (history w))%nat /\
  map_Forall (fun _ doc => exists e, In e (history w) /\ doc = pdf_of_entry e)
             (w_fs w).
Proof.
  intros Hok Hsvc. unfold run_session. apply session_log_inv; [assumption..|].
  destruct (session_start env Hok) as (Hh & Hf & Hq & Hc).
  rewrite Hh, Hf, Hq, Hc. split; [reflexivity|]. split; [|split; [reflexivity|]].
  - intros i e Hi. discriminate Hi.
  - apply map_Forall_empty.
Qed.





(** X10: in a session started in an empty directory, every PDF on disk
    is the document of some history entry: its body is that entry's
    plan and its four lines are that entry's inputs. *)
Theorem files_render_history_entries env (acts : list action)
    (name : string) (doc : pdf_doc) :
  startup_ok env -> raises_only_Exception env ->
  w_fs (run_session env acts) !! name = Some doc ->
  exists e : entry,
    In e (history (run_session env acts)) /\
    doc = pdf_page (plan e) (fitness_level e) (goal e) (duration e) (equipment e) /\
    doc_text doc =
      [ "Personalized Workout Plan"%string;
        "Fitness Level: " +:+ fitness_level e;
        "Goal: " +:+ goal e;
        "Duration: " +:+ str_of_int (duration e) +:+ " minutes";
        "Equipment: " +:+ equipment e;
        plan e ].
Proof.
  intros Hok Hsvc Hdoc.
  destruct (run_session_log env acts Hok Hsvc) as (_ & _ & _ & Hf).
  destruct (Hf _ _ Hdoc) as (e & He & ->).
  exists e. split; [exact He|]. split; reflexivity.
Qed.

Lemma files_render_history_entries_witness :
  exists e : entry,
    In e (history (run_session env_squats [ClickGenerate])) /\
    pdf_page "Do 10 squats." "Beginner" "Weight Loss" 30 "Bodyweight"
    = pdf_page (plan e) (fitness_level e) (goal e) (duration e) (equipment e) /\
    doc_text (pdf_page "Do 10 squats." "Beginner" "Weight Loss" 30 "Bodyweight") =
      [ "Personalized Workout Plan"%string;
        "Fitness Level: " +:+ fitness_level e;
        "Goal: " +:+ goal e;
        "Duration: " +:+ str_of_int (duration e) +:+ " minutes";
        "Equipment: " +:+ equipment e;
        plan e ].
Proof.
  refine (files_render_history_entries env_squats [ClickGenerate]
            "Workout_Plan_20240102_120001.pdf" _
            env_squats_ok env_squats_raises_only_Exception _).
  vm_compute. reflexivity.
Defined.

(** ** File names that collide *)

Lemma same_second_pdf_name (t1 t2 : datetime) :
  same_second t1 t2 -> pdf_name t1 = pdf_name t2.
Proof.
  intros (EY & EM & ED & Eh & Em & Es). unfold pdf_name.
  rewrite !stamp_eq. now rewrite EY, EM, ED, Eh, Em, Es.
Qed.

(** X4: the file name has no collision guard.  When two submissions in
    a row, both with a plan that latin-1 can encode, get their file
    stamps within the same clock second, the second PDF is written over
    the first: the history has both entries, the directory has one file
    under that name, holding the second document. *)
Theorem same_second_overwrites env (w : world) :
  startup_ok env -> raises_only_Exception env ->
  same_second (now env (S (w_clock w))) (now env (S (S (S (w_clock w))))) ->
  latin1 (plan (submitted_entry env w)) = true ->
  latin1 (plan (submitted_entry env (interact env w ClickGenerate))) = true ->
  let w1 := interact env w ClickGenerate in
  let w2 := interact env w1 ClickGenerate in
  let name := pdf_name (now env (S (w_clock w))) in
  history w2 = history w ++ [submitted_entry env w; submitted_entry env w1] /\
  w_fs w1 !! name = Some (pdf_of_entry (submitted_entry env w)) /\
  w_fs w2 !! name = Some (pdf_of_entry (submitted_entry env w1)) /\
  w_fs w2 = <[name := pdf_of_entry (submitted_entry env w1)]> (w_fs w).
Proof.
  intros Hok Hsvc Hsame Hl1 Hl2. cbv zeta.
  destruct (interact_click_fields env w Hok Hsvc) as (Hh1 & Hf1 & _ & Hc1).
  destruct (interact_click_fields env (interact env w ClickGenerate) Hok Hsvc)
    as (Hh2 & Hf2 & _ & _).
  rewrite Hl1 in Hf1. rewrite Hl2 in Hf2.
  rewrite Hc1 in Hf2. rewrite <- (same_second_pdf_name _ _ Hsame) in Hf2.
  split. { rewrite Hh2, Hh1. now rewrite <- app_assoc. }
  split. { rewrite Hf1. apply lookup_insert_eq. }
  split. { rewrite Hf2. apply lookup_insert_eq. }
  rewrite Hf2, Hf1. apply insert_insert_eq.
Qed.

Lemma env_fast_ok : startup_ok env_fast.
Proof. split; reflexivity. Qed.

Lemma env_fast_raises_only_Exception : raises_only_Exception env_fast.
Proof. intros n prompt e H. discriminate H. Qed.

Lemma same_second_overwrites_witness :
  let w := world_of (script env_fast initial_world) in
  let w1 := interact env_fast w ClickGenerate in
  let w2 := interact env_fast w1 ClickGenerate in
  let name := pdf_name (now env_fast (S (w_clock w))) in
  history w2 = history w ++ [submitted_entry env_fast w; submitted_entry env_fast w1] /\
  w_fs w1 !! name = Some (pdf_of_entry (submitted_entry env_fast w)) /\
  w_fs w2 !! name = Some (pdf_of_entry (submitted_entry env_fast w1)) /\
  w_fs w2 = <[name := pdf_of_entry (submitted_entry env_fast w1)]> (w_fs w).
Proof.
  refine (same_second_overwrites env_fast (world_of (script env_fast initial_world))
            env_fast_ok env_fast_raises_only_Exception _ _ _).
  - vm_compute. repeat split; reflexivity.
  - vm_compute. reflexivity.
  - vm_compute. reflexivity.
Defined.

(** ** The history only grows *)

Lemma main_history env (w : world) :
  exists k, history (world_of (main env w)) = history w ++ k.
Proof.
  destruct (btn_generate (w_widgets w)) eqn:Hb.
  - destruct (reply env (List.length (w_requests w))
                (prompt_of (selected fitness_options (sel_fitness (w_widgets w)))
                           (selected goal_options (sel_goal (w_widgets w)))
                           (num_duration (w_widgets w))
                           (selected equipment_options (sel_equipment (w_widgets w)))))
      as [e|s] eqn:Hr; [destruct (exn_is_Exception e) eqn:He|].
    + destruct (main_click env w Hb) as (w' & post & Hrun & Hh & _);
        [now rewrite Hr|].
      rewrite Hrun. eexists. destruct (latin1 _); exact Hh.
    + destruct (main_raise env w e Hb Hr He) as (w' & -> & Hh & _).
      exists []. cbn [world_of]. now rewrite app_nil_r.
    + destruct (main_click env w Hb) as (w' & post & Hrun & Hh & _);
        [now rewrite Hr|].
      rewrite Hrun. eexists. destruct (latin1 _); exact Hh.
  - destruct (main_idle env w Hb) as (w' & -> & Hh & _).
    exists []. cbn. now rewrite app_nil_r.
Qed.

Lemma script_history env (w : world) :
  exists k, history (world_of (script env w)) = history w ++ k.
Proof.
  destruct (py_not (getenv env "GOOGLE_API_KEY")) eqn:Hk.
  - unfold script, bind. rewrite (startup_no_key env w Hk).
    exists []. cbn. now rewrite app_nil_r.
  - destruct (GenerativeModel env "gemini-1.5-flash") as [e|] eqn:Hm.
    + unfold script, bind. destruct (exn_is_Exception e) eqn:He.
      * rewrite (startup_bad_model env w e Hk Hm He).
        exists []. cbn. now rewrite app_nil_r.
      * rewrite (startup_raise env w e Hk Hm He).
        exists []. cbn. now rewrite app_nil_r.
    + rewrite script_run by now split. apply main_history.
Qed.

Lemma fold_interact_history env (acts : list action) :
  forall w, history w `prefix_of` history (fold_left (interact env) acts w).
Proof.
  induction acts as [|a acts IH]; intros w; [reflexivity|].
  cbn [fold_left]. etransitivity; [|apply IH].
  unfold interact.
  destruct (script_history env (begin_run (apply_action a (w_widgets w)) w))
    as [k Hk].
  exists k. exact Hk.
Qed.

(** X13: the history is append-only.  Whatever the collaborators do
    (no credential, a constructor or a service that raises anything),
    the list a session has built is a prefix of the list it has after
    any further actions: no run of the script removes, reorders or
    rewrites an entry. *)
Theorem history_is_append_only env (acts more : list action) :
  history (run_session env acts)
  `prefix_of` history (run_session env (acts ++ more)).
Proof.
  unfold run_session. rewrite fold_left_app. apply fold_interact_history.
Qed.

(** ** The credential check *)

(** X1: the check on lines 13-17 stops the run exactly when the
    variable is unset or set to the empty string; any other value, valid
    or not, passes it.  When it stops the run, the message about the
    missing key is all the run does. *)
Theorem credential_check env (w : world) :
  (getenv env "GOOGLE_API_KEY" = None \/
   getenv env "GOOGLE_API_KEY" = Some EmptyString)
  <->
  script env w =
  Stopped (add_ui (UiError "❌ Gemini API Key missing! Please add it to the .env file.") w).
Proof.
  split.
  - intros Hk. unfold script, bind. rewrite startup_no_key; [reflexivity|].
    destruct Hk as [-> | ->]; reflexivity.
  - intros Hs. destruct (getenv env "GOOGLE_API_KEY") as [k|] eqn:Hk; [|now left].
    destruct k as [|c k]; [now right|]. exfalso.
    assert (Hn : py_not (getenv env "GOOGLE_API_KEY") = false) by now rewrite Hk.
    destruct (GenerativeModel env "gemini-1.5-flash") as [e|] eqn:Hm.
    + unfold script, bind in Hs. destruct (exn_is_Exception e) eqn:He.
      * rewrite (startup_bad_model env w e Hn Hm He) in Hs.
        injection Hs as Hs. apply app_inv_head in Hs.
        injection Hs. intros. discriminate.
      * rewrite (startup_raise env w e Hn Hm He) in Hs. discriminate Hs.
    + rewrite script_run in Hs by now split.
      destruct (btn_generate (w_widgets w)) eqn:Hb.
      * destruct (reply env (List.length (w_requests w))
                (prompt_of (selected fitness_options (sel_fitness (w_widgets w)))
                           (selected goal_options (sel_goal (w_widgets w)))
                           (num_duration (w_widgets w))
                           (selected equipment_options (sel_equipment (w_widgets w)))))
          as [e|s] eqn:Hr; [destruct (exn_is_Exception e) eqn:He|].
        -- destruct (main_click env w Hb) as (w' & post & Hm' & _);
             [now rewrite Hr|].
           rewrite Hm' in Hs. destruct (latin1 _); discriminate Hs.
        -- destruct (main_raise env w e Hb Hr He) as (w' & Hm' & _).
           rewrite Hm' in Hs. discriminate Hs.
        -- destruct (main_click env w Hb) as (w' & post & Hm' & _);
             [now rewrite Hr|].
           rewrite Hm' in Hs. destruct (latin1 _); discriminate Hs.
      * destruct (main_idle env w Hb) as (w' & Hm' & _).
        rewrite Hm' in Hs. discriminate Hs.
Qed.

Lemma credential_check_witness :
  script env_empty_key initial_world =
  Stopped (add_ui (UiError "❌ Gemini API Key missing! Please add it to the .env file.")
                  initial_world).
Proof.
  exact (proj1 (credential_check env_empty_key initial_world) (or_intror eq_refl)).
Defined.

(** ** The history section of the page *)

Lemma expander_labels_app (a b : list ui_event) :
  expander_labels (a ++ b) = expander_labels a ++ expander_labels b.
Proof.
  induction a as [|ev a IH]; [reflexivity|].
  destruct ev as [| | | | | | | | | | |c|]; cbn; try exact IH.
  destruct c; cbn; [exact IH | exact IH | now f_equal].
Qed.

Lemma markdown_bodies_app (a b : list ui_event) :
  markdown_bodies (a ++ b) = markdown_bodies a ++ markdown_bodies b.
Proof.
  induction a as [|ev a IH]; [reflexivity|].
  destruct ev; cbn; try exact IH. now f_equal.
Qed.

Lemma show_history_page (h : list entry) :
  forall (i : nat) (w : world),
  exists (w' : world) (evs : list ui_event),
    show_history i h w = Ret tt w' /\
    w_ui w' = w_ui w ++ evs /\
    expander_labels evs =
      imap (fun j e => "Workout " +:+ str_of_int (Z.of_nat (i + j) + 1)
                       +:+ " - " +:+ date e) h /\
    markdown_bodies evs = map plan h.
Proof.
  induction h as [|e h IH]; intros i w.
  - exists w, []. split; [reflexivity|]. now rewrite app_nil_r.
  - cbn [show_history]. unfold bind at 1.
    destruct (IH (S i)
                (add_ui UiExit
                   (add_ui (UiMarkdown (plan e))
                      (add_ui (UiWrite ("**Equipment:** " +:+ equipment e))
                         (add_ui (UiWrite ("**Duration:** " +:+ str_of_int (duration e) +:+ " minutes"))
                            (add_ui (UiWrite ("**Goal:** " +:+ goal e))
                               (add_ui (UiWrite ("**Fitness Level:** " +:+ fitness_level e))
                                  (add_ui (UiEnter (Expander ("Workout " +:+ str_of_int (Z.of_nat i + 1) +:+ " - " +:+ date e))) w))))))))
      as (w' & evs & Hrun & Hu & Hl & Hm).
    eexists w', _.
    split; [exact Hrun|]. split.
    { rewrite Hu. cbn [add_ui w_ui]. rewrite <- !app_assoc. cbn [app]. reflexivity. }
    split.
    { cbn [expander_labels imap]. rewrite Hl. f_equal.
      - now rewrite Nat.add_0_r.
      - apply imap_ext. intros j x _. cbn. now rewrite Nat.add_succ_r. }
    cbn. now rewrite Hm.
Qed.

(** X6: the history section lists the entries in the order they were
    appended, one expander each, numbered from 1 and labelled
    "Workout <n> - <date>", each showing its own plan; with an empty
    history the section is not drawn at all, otherwise it starts with
    the subheader "Workout History". *)
Theorem history_section_lists_entries (w : world) :
  exists w' : world,
    history_section w = Ret tt w' /\
    expander_labels (ui_since w w') =
      imap (fun i e => "Workout " +:+ str_of_int (Z.of_nat i + 1)
                       +:+ " - " +:+ date e) (history w) /\
    markdown_bodies (ui_since w w') = map plan (history w) /\
    (history w = [] -> w' = w) /\
    (history w <> [] -> head (ui_since w w') = Some (UiSubheader "Workout History")).
Proof.
  unfold history_section, bind at 1, get_world, history, ui_since.
  destruct (w_session w !! history_key) as [[|e h]|] eqn:Hk; cbn [default].
  - exists w. split; [reflexivity|]. rewrite drop_all. now repeat split.
  - unfold bind at 1, st_subheader at 1, st_emit at 1, modify at 1.
    destruct (show_history_page (e :: h) 0 (add_ui (UiSubheader "Workout History") w))
      as (w' & evs & -> & Hu & Hl & Hm).
    exists w'. split; [reflexivity|].
    cbn [add_ui w_ui] in Hu. rewrite <- app_assoc in Hu.
    rewrite Hu, drop_app_length. cbn [app expander_labels markdown_bodies head].
    split; [exact Hl|]. split; [exact Hm|]. split; [discriminate | reflexivity].
  - exists w. split; [reflexivity|]. rewrite drop_all. now repeat split.
Qed.

(** ** The date of a history entry *)

Lemma substring_field (a b c : string) (n m : nat) :
  n = String.length a -> m = String.length b ->
  substring n m (a +:+ b +:+ c) = b.
Proof. intros -> ->. apply substring_mid. Qed.

Lemma date_eq (t : datetime) :
  strftime t "%Y-%m-%d %H:%M:%S" =
  zero_pad 4 (year t) +:+ "-" +:+ zero_pad 2 (month t) +:+ "-"
  +:+ zero_pad 2 (day t) +:+ " " +:+ zero_pad 2 (hour t) +:+ ":"
  +:+ zero_pad 2 (minute t) +:+ ":" +:+ zero_pad 2 (second t).
Proof.
  rewrite <- (append_nil_r (zero_pad 2 (second t))). reflexivity.
Qed.

(** X11: the date stored in a history entry, written with
    "%Y-%m-%d %H:%M:%S", is 19 characters long and can be read back: the
    characters at 0-3, 5-6, 8-9, 11-12, 14-15 and 17-18 are the year,
    month, day, hour, minute and second of the clock reading.  The
    microseconds are dropped. *)
Theorem history_date_reads_back (t : datetime) :
  valid_datetime t ->
  let s := strftime t "%Y-%m-%d %H:%M:%S" in
  String.length s = 19%nat /\
  int_of_str (substring 0 4 s) = Some (year t) /\
  int_of_str (substring 5 2 s) = Some (month t) /\
  int_of_str (substring 8 2 s) = Some (day t) /\
  int_of_str (substring 11 2 s) = Some (hour t) /\
  int_of_str (substring 14 2 s) = Some (minute t) /\
  int_of_str (substring 17 2 s) = Some (second t).
Proof.
  intros V. cbv zeta. rewrite date_eq.
  apply valid_datetime_fields in V as (Y & M & D & h & m & s).
  apply pad4_spec in Y as (LY & _ & RY).
  apply pad2_spec in M as (LM & _ & RM).
  apply pad2_spec in D as (LD & _ & RD).
  apply pad2_spec in h as (Lh & _ & Rh).
  apply pad2_spec in m as (Lm & _ & Rm).
  apply pad2_spec in s as (Ls & _ & Rs).
  set (sY := zero_pad 4 (year t)) in *. set (sM := zero_pad 2 (month t)) in *.
  set (sD := zero_pad 2 (day t)) in *. set (sh := zero_pad 2 (hour t)) in *.
  set (sm := zero_pad 2 (minute t)) in *. set (ss := zero_pad 2 (second t)) in *.
  split. { rewrite !length_append, LY, LM, LD, Lh, Lm, Ls. reflexivity. }
  split.
  { rewrite <- RY. f_equal.
    rewrite <- (append_nil sY) at 1.
    apply (substring_field EmptyString sY); [reflexivity | now rewrite LY]. }
  split.
  { rewrite <- RM. f_equal.
    rewrite <- (append_assoc sY "-").
    apply substring_field; [rewrite length_append, LY; reflexivity | now rewrite LM]. }
  split.
  { rewrite <- RD. f_equal.
    rewrite <- (append_assoc sM "-"), <- (append_assoc "-" (sM +:+ "-")),
      <- (append_assoc sY ("-" +:+ sM +:+ "-")).
    apply substring_field; [rewrite !length_append, LY, LM; reflexivity | now rewrite LD]. }
  split.
  { rewrite <- Rh. f_equal.
    rewrite <- (append_assoc sD " "), <- (append_assoc "-" (sD +:+ " ")),
      <- (append_assoc sM ("-" +:+ sD +:+ " ")),
      <- (append_assoc "-" (sM +:+ "-" +:+ sD +:+ " ")),
      <- (append_assoc sY ("-" +:+ sM +:+ "-" +:+ sD +:+ " ")).
    apply substring_field; [rewrite !length_append, LY, LM, LD; reflexivity | now rewrite Lh]. }
  split.
  { rewrite <- Rm. f_equal.
    rewrite <- (append_assoc sh ":"), <- (append_assoc " " (sh +:+ ":")),
      <- (append_assoc sD (" " +:+ sh +:+ ":")),
      <- (append_assoc "-" (sD +:+ " " +:+ sh +:+ ":")),
      <- (append_assoc sM ("-" +:+ sD +:+ " " +:+ sh +:+ ":")),
      <- (append_assoc "-" (sM +:+ "-" +:+ sD +:+ " " +:+ sh +:+ ":")),
      <- (append_assoc sY ("-" +:+ sM +:+ "-" +:+ sD +:+ " " +:+ sh +:+ ":")).
    apply substring_field; [rewrite !length_append, LY, LM, LD, Lh; reflexivity | now rewrite Lm]. }
  rewrite <- Rs. f_equal.
  rewrite <- (append_nil_r ss) at 1.
  rewrite <- (append_assoc sm ":"), <- (append_assoc ":" (sm +:+ ":")),
    <- (append_assoc sh (":" +:+ sm +:+ ":")),
    <- (append_assoc " " (sh +:+ ":" +:+ sm +:+ ":")),
    <- (append_assoc sD (" " +:+ sh +:+ ":" +:+ sm +:+ ":")),
    <- (append_assoc "-" (sD +:+ " " +:+ sh +:+ ":" +:+ sm +:+ ":")),
    <- (append_assoc sM ("-" +:+ sD +:+ " " +:+ sh +:+ ":" +:+ sm +:+ ":")),
    <- (append_assoc "-" (sM +:+ "-" +:+ sD +:+ " " +:+ sh +:+ ":" +:+ sm +:+ ":")),
    <- (append_assoc sY ("-" +:+ sM +:+ "-" +:+ sD +:+ " " +:+ sh +:+ ":" +:+ sm +:+ ":")).
  apply substring_field; [rewrite !length_append, LY, LM, LD, Lh, Lm; reflexivity | now rewrite Ls].
Qed.

Lemma leap_evening_valid : valid_datetime (mk_datetime 2024 2 29 23 59 58 123456).
Proof. repeat split; vm_compute; congruence. Qed.

Lemma history_date_reads_back_witness :
  let s := strftime (mk_datetime 2024 2 29 23 59 58 123456) "%Y-%m-%d %H:%M:%S" in
  String.length s = 19%nat /\
  int_of_str (substring 0 4 s) = Some 2024 /\
  int_of_str (substring 5 2 s) = Some 2 /\
  int_of_str (substring 8 2 s) = Some 29 /\
  int_of_str (substring 11 2 s) = Some 23 /\
  int_of_str (substring 14 2 s) = Some 59 /\
  int_of_str (substring 17 2 s) = Some 58.
Proof.
  exact (history_date_reads_back (mk_datetime 2024 2 29 23 59 58 123456)
           leap_evening_valid).
Defined.

(** ** The error string as a return value *)

(** X12: the value [generate_workout] returns does not tell a failure
    from a success.  A service that fails with [e] and a service that
    answers with the text "An error occurred: " followed by [str(e)]
    make it return the same string; only the error message on the page
    differs. *)
Theorem error_string_is_not_a_marker env1 env2 (fl g : string) (d : Z)
    (eq : string) (w : world) (e : exn) :
  reply env1 (List.length (w_requests w)) (prompt_of fl g d eq) = inl e ->
  exn_is_Exception e = true ->
  reply env2 (List.length (w_requests w)) (prompt_of fl g d eq)
  = inr ("An error occurred: " +:+ exn_str e) ->
  exists (r : string) (w2 : world),
    generate_workout env1 fl g d eq w
    = Ret r (add_ui (UiError ("❌ Error generating workout: " +:+ exn_str e)) w2) /\
    generate_workout env2 fl g d eq w = Ret r w2.
Proof.
  intros H1 He H2. rewrite !generate_workout_run. cbv zeta.
  rewrite H1, He, H2. eexists _, _. split; reflexivity.
Qed.

Lemma error_string_is_not_a_marker_witness :
  exists (r : string) (w2 : world),
    generate_workout env_quota "Beginner" "Weight Loss" 30 "Bodyweight" initial_world
    = Ret r (add_ui (UiError "❌ Error generating workout: quota exceeded") w2) /\
    generate_workout env_sentinel "Beginner" "Weight Loss" 30 "Bodyweight" initial_world
    = Ret r w2.
Proof.
  exact (error_string_is_not_a_marker env_quota env_sentinel
           "Beginner" "Weight Loss" 30 "Bodyweight" initial_world
           (mk_exn true "quota exceeded") eq_refl eq_refl eq_refl).
Defined.

(** ** The file of a submission *)

(** X5: a submission writes at most one file and leaves every other
    file as it was.  When the plan text can be encoded in latin-1, the
    file is named after the second clock reading of the run (the first
    one dates the history entry), it holds the document drawn from the
    plan and the form values, and the download button offers that very
    document under that very name as application/pdf.  When it cannot,
    [pdf.output] raises: no file is written or changed and no download
    button is shown. *)
Theorem submission_writes_one_file env (w : world) :
  btn_generate (w_widgets w) = true ->
  match reply env (List.length (w_requests w)) (prompt_of_entry (submitted_entry env w)) with
  | inl e => exn_is_Exception e = true
  | inr _ => True
  end ->
  let e := submitted_entry env w in
  let name := "Workout_Plan_" +:+ strftime (now env (S (w_clock w))) "%Y%m%d_%H%M%S"
              +:+ ".pdf" in
  exists w' : world,
    main env w =
      (if latin1 (plan e) then Ret tt w' else Raise UnicodeEncodeError w') /\
    (latin1 (plan e) = true ->
     w_fs w' !! name = Some (pdf_of_entry e) /\
     In (UiDownloadButton "Download as PDF" (pdf_of_entry e) name "application/pdf")
        (ui_since w w')) /\
    (latin1 (plan e) = false ->
     w_fs w' = w_fs w /\
     forall doc file_name mime,
       ~ In (UiDownloadButton "Download as PDF" doc file_name mime) (ui_since w w')) /\
    (forall other : string, other <> name -> w_fs w' !! other = w_fs w !! other) /\
    date e = strftime (now env (w_clock w)) "%Y-%m-%d %H:%M:%S".
Proof.
  intros Hb Hr. cbv zeta.
  destruct (main_click env w Hb Hr) as
    (w' & post & Hm & _ & Hf & _ & _ & _ & Hu & _).
  exists w'. split; [exact Hm|].
  rewrite (ui_since_app _ _ _ Hu).
  change (plan (submitted_entry env w))
    with (plan_text
            (reply env (List.length (w_requests w))
               (prompt_of (selected fitness_options (sel_fitness (w_widgets w)))
                          (selected goal_options (sel_goal (w_widgets w)))
                          (num_duration (w_widgets w))
                          (selected equipment_options (sel_equipment (w_widgets w)))))).
  split; [|split; [|split; [|reflexivity]]].
  - intros Hl. rewrite Hl in Hf |- *. split.
    + rewrite Hf. apply lookup_insert_eq.
    + rewrite !in_app_iff. right. right. right. right. now left.
  - intros Hl. rewrite Hl in Hf |- *. split; [exact Hf|].
    intros doc file_name mime Hin. rewrite !in_app_iff in Hin.
    destruct Hin as [Hin | [Hin | [Hin | [Hin | Hin]]]].
    + cbn in Hin.
      repeat (destruct Hin as [Hin | Hin]; [discriminate Hin|]). exact Hin.
    + cbn in Hin. destruct Hin as [Hin | Hin]; [discriminate Hin | exact Hin].
    + destruct (reply env _ _); cbn in Hin;
        [destruct Hin as [Hin | Hin]; [discriminate Hin | exact Hin] | exact Hin].
    + cbn in Hin.
      repeat (destruct Hin as [Hin | Hin]; [discriminate Hin|]). exact Hin.
    + exact Hin.
  - intros other Ho. rewrite Hf. destruct (latin1 _); [|reflexivity].
    now apply lookup_insert_ne.
Qed.

Lemma submission_writes_one_file_witness :
  exists w' : world,
    main env_squats (begin_run (apply_action ClickGenerate initial_widgets)
                               initial_world)
    = Ret tt w' /\
    (true = true ->
     w_fs w' !! "Workout_Plan_20240102_120001.pdf"
     = Some (pdf_page "Do 10 squats." "Beginner" "Weight Loss" 30 "Bodyweight") /\
     In (UiDownloadButton "Download as PDF"
           (pdf_page "Do 10 squats." "Beginner" "Weight Loss" 30 "Bodyweight")
           "Workout_Plan_20240102_120001.pdf" "application/pdf")
        (ui_since (begin_run (apply_action ClickGenerate initial_widgets) initial_world)
                  w')) /\
    (true = false ->
     w_fs w' = ∅ /\
     forall doc file_name mime,
       ~ In (UiDownloadButton "Download as PDF" doc file_name mime)
            (ui_since (begin_run (apply_action ClickGenerate initial_widgets)
                                 initial_world) w')) /\
    (forall other : string,
       other <> "Workout_Plan_20240102_120001.pdf"%string ->
       w_fs w' !! other = None) /\
    date (submitted_entry env_squats
            (begin_run (apply_action ClickGenerate initial_widgets) initial_world))
    = "2024-01-02 12:00:00"%string.
Proof.
  exact (submission_writes_one_file env_squats
           (begin_run (apply_action ClickGenerate initial_widgets) initial_world)
           eq_refl I).
Defined.
